(** * trymac: quote panel (mag_panel.py) and admin grid (pg_admin_gui.py)

    A shallow embedding of the two Python programs and the properties their
    specification states about them.

    Conventions of the embedding.
    - A Python [str] is a [string] holding the UTF-8 bytes of its
      characters; [str.strip] and the regular expressions [\d], [\D] work
      on characters, with Python's classes (module [Text]).
    - A Python [float] is a binary64 number: [PrimFloat.float] where the code
      computes with it, and an exact rounding function on integers where the
      code parses a decimal text ([norm_ref]).
    - A [dict] is a [gmap]; [None] is [option]'s [None].
    - Builtins whose tables are not part of the program ([str.lower],
      [float] on arbitrary text, number formatting) are parameters of the
      sections that use them. *)

From Stdlib Require Import ZArith NArith Lia Bool List Ascii String.
From Stdlib Require Import Decimal DecimalString DecimalN.
From Stdlib Require Import Floats.
From stdpp Require Import base option list gmap strings.

#[local] Set Warnings "-inexact-float".
Local Open Scope string_scope.
Local Open Scope list_scope.
Local Open Scope Z_scope.

(** ** Text helpers (Python [str] methods)

    A text is kept as the UTF-8 bytes of its characters. [str.strip] and
    the classes [\d], [\D] of [re] work on characters, with the tables of
    Python 3.11 (Unicode 14.0). *)

Module Text.

Definition is_empty (s : string) : bool :=
  match s with EmptyString => true | String _ _ => false end.

(** A byte of the form 10xxxxxx: it continues a character. *)
Definition is_continuation (b : ascii) : bool :=
  let n := N_of_ascii b in ((128 <=? n) && (n <? 192))%N.

(** Whether a text starts in the middle of a character. *)
Definition starts_inside (s : string) : bool :=
  match s with String b _ => is_continuation b | EmptyString => false end.

(** The characters of a text, each as its bytes: a character is a byte
    with the continuation bytes that follow it. *)
Fixpoint chars (s : string) : list string :=
  match s with
  | EmptyString => []
  | String b s' =>
      match chars s' with
      | c :: cs =>
          if starts_inside s' then String b c :: cs else String b "" :: c :: cs
      | [] => [String b ""]
      end
  end.

Definition of_chars (cs : list string) : string := foldr String.append "" cs.

Definition payload (b : ascii) : option N :=
  if is_continuation b then Some (N_of_ascii b - 128)%N else None.

Fixpoint payloads (t : string) : option (list N) :=
  match t with
  | EmptyString => Some []
  | String b t' => x ← payload b; xs ← payloads t'; Some (x :: xs)
  end.

(** [ord(c)]: the code point of a character, when its bytes are the
    UTF-8 form of one (the shortest form, below U+110000). *)
Definition code_point (c : string) : option N :=
  match c with
  | EmptyString => None
  | String b t =>
      let n := N_of_ascii b in
      match payloads t with
      | Some [] => if (n <? 128)%N then Some n else None
      | Some [x1] =>
          if ((194 <=? n) && (n <? 224))%N then Some ((n - 192) * 64 + x1)%N else None
      | Some [x1; x2] =>
          let cp := (((n - 224) * 64 + x1) * 64 + x2)%N in
          if ((224 <=? n) && (n <? 240) && (2048 <=? cp))%N then Some cp else None
      | Some [x1; x2; x3] =>
          let cp := ((((n - 240) * 64 + x1) * 64 + x2) * 64 + x3)%N in
          if ((240 <=? n) && (n <? 245) && (65536 <=? cp) && (cp <? 1114112))%N
          then Some cp else None
      | _ => None
      end
  end.

(** The code points [str.isspace] holds of: what [str.strip] removes. *)
Definition space_codes : list N :=
  [0x9; 0xA; 0xB; 0xC; 0xD; 0x1C; 0x1D; 0x1E; 0x1F; 0x20; 0x85; 0xA0; 0x1680;
   0x2000; 0x2001; 0x2002; 0x2003; 0x2004; 0x2005; 0x2006; 0x2007; 0x2008;
   0x2009; 0x200A; 0x2028; 0x2029; 0x202F; 0x205F; 0x3000]%N.

(** The zeros of the decimal digits (category Nd, Unicode 14.0): each is
    followed by the digits one to nine of its script. These are the
    characters of [\d], and the digits [int] and [float] read. *)
Definition decimal_zeros : list N :=
  [0x30; 0x660; 0x6F0; 0x7C0; 0x966; 0x9E6; 0xA66; 0xAE6; 0xB66; 0xBE6; 0xC66;
   0xCE6; 0xD66; 0xDE6; 0xE50; 0xED0; 0xF20; 0x1040; 0x1090; 0x17E0; 0x1810;
   0x1946; 0x19D0; 0x1A80; 0x1A90; 0x1B50; 0x1BB0; 0x1C40; 0x1C50; 0xA620;
   0xA8D0; 0xA900; 0xA9D0; 0xA9F0; 0xAA50; 0xABF0; 0xFF10; 0x104A0; 0x10D30;
   0x11066; 0x110F0; 0x11136; 0x111D0; 0x112F0; 0x11450; 0x114D0; 0x11650;
   0x116C0; 0x11730; 0x118E0; 0x11950; 0x11C50; 0x11D50; 0x11DA0; 0x16A60;
   0x16AC0; 0x16B50; 0x1D7CE; 0x1D7D8; 0x1D7E2; 0x1D7EC; 0x1D7F6; 0x1E140;
   0x1E2F0; 0x1E950; 0x1FBF0]%N.

Definition space_code (n : N) : bool := existsb (N.eqb n) space_codes.

Definition digit_of_code (n : N) : option N :=
  (fun z => n - z)%N
    <$> List.find (fun z => (z <=? n) && (n <? z + 10))%N decimal_zeros.

Arguments space_code : simpl never.
Arguments digit_of_code : simpl never.

(** [c.isspace()] *)
Definition is_space (c : string) : bool :=
  match code_point c with
  | Some n => space_code n
  | None => false
  end.

(** The value of a decimal digit. *)
Definition digit_value (c : string) : option N := code_point c ≫= digit_of_code.

(** [\d] *)
Definition is_digit (c : string) : bool :=
  match digit_value c with Some _ => true | None => false end.

Fixpoint drop_spaces (cs : list string) : list string :=
  match cs with
  | [] => []
  | c :: cs' => if is_space c then drop_spaces cs' else cs
  end.

Definition trim (cs : list string) : list string :=
  reverse (drop_spaces (reverse (drop_spaces cs))).

Definition lstrip (s : string) : string := of_chars (drop_spaces (chars s)).

Definition rstrip (s : string) : string :=
  of_chars (reverse (drop_spaces (reverse (chars s)))).

(** [s.strip()] *)
Definition strip (s : string) : string := of_chars (trim (chars s)).

(** [s.replace(a, b)] for ASCII characters [a] and [b] (no byte of
    another character is an ASCII byte). *)
Fixpoint replace (a b : ascii) (s : string) : string :=
  match s with
  | EmptyString => EmptyString
  | String c s' => String (if Ascii.eqb c a then b else c) (replace a b s')
  end.

Fixpoint span_chars (p : string -> bool) (cs : list string)
    : list string * list string :=
  match cs with
  | [] => ([], [])
  | c :: cs' =>
      if p c then let '(d, r) := span_chars p cs' in (c :: d, r) else ([], cs)
  end.

(** The longest prefix of digits and what follows it: how a greedy [\d*]
    splits a text. *)
Definition span_digits (s : string) : string * string :=
  let '(d, r) := span_chars is_digit (chars s) in (of_chars d, of_chars r).

(** The characters of [s] that satisfy [p], in order. *)
Definition filter_chars (p : string -> bool) (s : string) : string :=
  of_chars (List.filter p (chars s)).

Definition all_digits (s : string) : bool := forallb is_digit (chars s).

(** A text with each decimal digit turned into its ASCII digit: what
    [int] and [float] parse. *)
Definition ascii_digits (s : string) : string :=
  of_chars ((fun c => match digit_value c with
                      | Some v => String (ascii_of_N (48 + v)) EmptyString
                      | None => c
                      end) <$> chars s).

(** [int(d)] for a text [d] of digits, and [str(n)] for [n >= 0]. *)
Definition int_of_digits (d : string) : Z :=
  match NilEmpty.uint_of_string (ascii_digits d) with
  | Some u => Z.of_N (N.of_uint u)
  | None => 0
  end.

Definition str_of_int (n : Z) : string :=
  NilZero.string_of_uint (N.to_uint (Z.to_N n)).

(** A list of characters as [chars] gives them: each a byte with
    continuation bytes, and none but the first starting with a
    continuation byte. *)
Fixpoint continues (t : string) : bool :=
  match t with
  | EmptyString => true
  | String b t' => is_continuation b && continues t'
  end.

Definition is_char (c : string) : bool :=
  match c with EmptyString => false | String _ t => continues t end.

Definition segmented (cs : list string) : Prop :=
  Forall (fun c => is_char c = true) cs /\
  Forall (fun c => starts_inside c = false) (tail cs).

(** A text of the ASCII digits only. *)
Fixpoint plain_digits (s : string) : bool :=
  match s with
  | EmptyString => true
  | String b s' =>
      let n := N_of_ascii b in ((48 <=? n) && (n <=? 57))%N && plain_digits s'
  end.

End Text.

(** ** Decimal text to binary64 ([float(s)] on a digits[.digits] text) *)

Module Float64.

(** The value of [float(s)]: infinite, or [m * 2^e]. *)
Inductive t := Inf | Fin (m e : Z).

(** [n / d] rounded to the nearest integer, ties to even ([0 < d]). *)
Definition round_half_even (n d : Z) : Z :=
  let q := n / d in
  let r := n mod d in
  if 2 * r <? d then q
  else if d <? 2 * r then q + 1
  else if Z.even q then q else q + 1.

(** [p / q < 2^k] decided on integers, for any sign of [k]. *)
Definition ratio_lt_pow2 (p q k : Z) : bool :=
  if 0 <=? k then p <? q * 2 ^ k else p * 2 ^ (- k) <? q.

(** [floor (log2 (p / q))] for [0 < p], [0 < q]. *)
Definition ilog2_ratio (p q : Z) : Z :=
  let est := Z.log2 p - Z.log2 q in
  if ratio_lt_pow2 p q est then est - 1 else est.

(** [p / q] rounded to binary64 (53 bits, least exponent -1074, overflow
    to infinity from 2^1024), for [0 <= p], [0 < q]. *)
Definition of_ratio (p q : Z) : t :=
  if p =? 0 then Fin 0 0 else
  let e := Z.max (ilog2_ratio p q - 52) (-1074) in
  let m := if 0 <=? e then round_half_even p (q * 2 ^ e)
           else round_half_even (p * 2 ^ (- e)) q in
  if 2 ^ 1024 <=? m * 2 ^ e then Inf else Fin m e.

(** [float(d + "." + f)] ([f] empty when there is no fraction). *)
Definition of_decimal (d f : string) : t :=
  let k := Z.of_nat (length (Text.chars f)) in
  of_ratio (Text.int_of_digits d * 10 ^ k + Text.int_of_digits f) (10 ^ k).

(** [x.is_integer()] *)
Definition is_integer (x : t) : bool :=
  match x with
  | Inf => false
  | Fin m e => if 0 <=? e then true else m mod 2 ^ (- e) =? 0
  end.

(** [int(x)] for a finite [x] (truncation). *)
Definition to_int (x : t) : Z :=
  match x with
  | Inf => 0
  | Fin m e => if 0 <=? e then m * 2 ^ e else m / 2 ^ (- e)
  end.

(** The non-negative integers binary64 holds exactly: below 2^1024 and a
    multiple of the unit in the last place of their binade. *)
Definition representable (n : Z) : Prop :=
  0 <= n < 2 ^ 1024 /\ (2 ^ Z.max 0 (Z.log2 n - 52) | n).

End Float64.

(** ** mag_panel.py: module-level helpers *)

(** [$]: the end of the text, or a line feed that ends it. *)
Definition at_end (r : string) : bool :=
  match r with
  | EmptyString => true
  | String c EmptyString => Ascii.eqb c (ascii_of_N 10)
  | _ => false
  end.

(** [re.match(r"^(\d+)\.0$", s)]: the group, when the text matches. *)
Definition match_int_dot_zero (s : string) : option string :=
  let '(d, r) := Text.span_digits s in
  match r with
  | String c1 (String c2 r') =>
      if negb (Text.is_empty d) && Ascii.eqb c1 "." && Ascii.eqb c2 "0" && at_end r'
      then Some d else None
  | _ => None
  end.

(** [re.match(r"^\d+(\.\d+)?$", s)]: the integer and the fraction digits. *)
Definition match_decimal (s : string) : option (string * string) :=
  let '(d, r) := Text.span_digits s in
  if Text.is_empty d then None else
  if at_end r then Some (d, EmptyString) else
  match r with
  | EmptyString => None
  | String c f =>
      if Ascii.eqb c "." then
        let '(fd, r') := Text.span_digits f in
        if negb (Text.is_empty fd) && at_end r' then Some (d, fd) else None
      else None
  end.

(** [norm_ref(x)]; the argument is [None] or [str(x)]. *)
Definition norm_ref (x : option string) : string :=
  match x with
  | None => ""
  | Some t =>
      let s := Text.replace "," "." (Text.strip t) in
      match match_int_dot_zero s with
      | Some g => g
      | None =>
          match match_decimal s with
          | Some (d, fr) =>
              let f := Float64.of_decimal d fr in
              if Float64.is_integer f then Text.str_of_int (Float64.to_int f) else s
          | None => s
          end
      end
  end.

(** When the digits [g] of a text "g.0" survive a second normalisation:
    [g] is the decimal text [str(n)] of an integer binary64 holds exactly
    (so it has no leading zero), or [g] is so long that [float(g)]
    overflows. *)
Definition stable_digits (g : string) : Prop :=
  (exists n, Float64.representable n /\ g = Text.str_of_int n) \/
  Float64.of_decimal g "" = Float64.Inf.

(** [digits_only(s)]: [re.sub(r"\D", "", s or "")] *)
Definition digits_only (s : option string) : string :=
  Text.filter_chars Text.is_digit (default "" s).


(** ** Python values and builtins *)

(** A returned value, or a raised exception (by its class name). *)
Inductive exc (A : Type) : Type :=
| Ret (a : A)
| Raise (e : string).
Arguments Ret {A} a.
Arguments Raise {A} e.

#[global] Instance exc_ret : MRet exc := @Ret.
#[global] Instance exc_bind : MBind exc :=
  fun A B f m => match m with Ret a => f a | Raise e => Raise e end.

(** [try: body except Exception: handler] *)
Definition try_except {A} (body : exc A) (handler : exc A) : exc A :=
  match body with Ret a => Ret a | Raise _ => handler end.

(** A builtin that returns or raises [e]. *)
Definition or_raise {A} (e : string) (o : option A) : exc A :=
  match o with Some a => Ret a | None => Raise e end.

(** The builtins the programs call whose tables are not part of them:
    [str.lower], [float] and [int] on a text ([None] when they raise
    [ValueError]), and the [fromisoformat] constructors of [datetime]. *)
Class Python := {
  str_lower : string -> string;
  float_of_str : string -> option float;
  int_of_str : string -> option Z;
  datetime : Type;
  date : Type;
  time : Type;
  datetime_fromisoformat : string -> option datetime;
  date_fromisoformat : string -> option date;
  time_fromisoformat : string -> option time;
}.

Module Py.

(** [bool(x)] for a float: anything but a zero. *)
Definition truthy (x : float) : bool := negb (PrimFloat.eqb x 0).

(** [d or 0.0] for a float or [None]. *)
Definition or_zero (d : option float) : float :=
  match d with
  | Some x => if truthy x then x else 0%float
  | None => 0%float
  end.

(** [float(n)] for an int. *)
Definition float_of_int (n : Z) : float :=
  SF2Prim (binary_normalize prec emax n 0 false).

(** [int(x)]: truncation; raises on an infinity or a NaN. *)
Definition int_of_float (x : float) : option Z :=
  match Prim2SF x with
  | S754_zero _ => Some 0
  | S754_finite s m e =>
      Some (cond_Zopp s (if 0 <=? e then Z.pos m * 2 ^ e else Z.pos m / 2 ^ (- e)))
  | S754_infinity _ | S754_nan => None
  end.

(** [x.is_integer()] *)
Definition is_integer (x : float) : bool :=
  match Prim2SF x with
  | S754_zero _ => true
  | S754_finite _ m e => if 0 <=? e then true else Z.pos m mod 2 ^ (- e) =? 0
  | S754_infinity _ | S754_nan => false
  end.

Definition two_digits (n : Z) : string :=
  ((if (n <? 10)%Z then "0" else "") ++ Text.str_of_int n)%string.

(** [f"{x:.2f}"]: the exact value rounded to hundredths, ties to even. *)
Definition format_2f (x : float) : string :=
  match Prim2SF x with
  | S754_nan => "nan"
  | S754_infinity s => if s then "-inf" else "inf"
  | S754_zero s => if s then "-0.00" else "0.00"
  | S754_finite s m e =>
      let n := if 0 <=? e then Z.pos m * 2 ^ e * 100
               else Float64.round_half_even (Z.pos m * 100) (2 ^ (- e)) in
      ((if s then "-" else "") ++ Text.str_of_int (n / 100)%Z ++ "."
         ++ two_digits (n mod 100)%Z)%string
  end.

(** [max(1, q)] *)
Definition at_least_one (q : Z) : Z := Z.max 1 q.

End Py.

(** [parse_money(s)] *)
Definition parse_money `{Python} (s : option string) : option float :=
  match s with
  | None => None
  | Some s => float_of_str (Text.replace "," "." (Text.strip s))
  end.

(** [fmt_money(x)] *)
Definition fmt_money (x : option float) : string :=
  match x with
  | None => ""
  | Some x => Py.format_2f x
  end.

(** ** The summary grid (a [QTableWidget] of eight columns) *)

Module Qt.

(** A [QTableWidgetItem]: its text and the two user-role data slots the
    panel uses ([None] when a slot was never set). *)
Record item := Item {
  text : string;
  base_trimm : option float;     (* data(USERROLE_BASE_TRIMM) *)
  list_price : option float;     (* data(USERROLE_LIST_PRICE) *)
}.

(** [QTableWidgetItem(s)] *)
Definition new_item (s : string) : item := Item s None None.

Definition setText (s : string) (it : item) : item :=
  Item s (base_trimm it) (list_price it).

(** One row: what each of the eight cells holds ([None]: no item). *)
Record row := Row {
  c_no : option item;
  c_pn : option item;
  c_desc : option item;
  c_qty : option item;
  c_ctrl : option item;
  c_pack : option item;
  c_price_list : option item;
  c_price_trimm : option item;
}.

Definition empty_row : row := Row None None None None None None None None.

Definition columnCount : nat := 8.

Definition cell (c : nat) (rw : row) : option item :=
  match c with
  | 0 => c_no rw | 1 => c_pn rw | 2 => c_desc rw | 3 => c_qty rw
  | 4 => c_ctrl rw | 5 => c_pack rw | 6 => c_price_list rw
  | 7 => c_price_trimm rw | _ => None
  end%nat.

Definition set_cell (c : nat) (v : option item) (rw : row) : row :=
  let '(Row a0 a1 a2 a3 a4 a5 a6 a7) := rw in
  match c with
  | 0 => Row v a1 a2 a3 a4 a5 a6 a7 | 1 => Row a0 v a2 a3 a4 a5 a6 a7
  | 2 => Row a0 a1 v a3 a4 a5 a6 a7 | 3 => Row a0 a1 a2 v a4 a5 a6 a7
  | 4 => Row a0 a1 a2 a3 v a5 a6 a7 | 5 => Row a0 a1 a2 a3 a4 v a6 a7
  | 6 => Row a0 a1 a2 a3 a4 a5 v a7 | 7 => Row a0 a1 a2 a3 a4 a5 a6 v
  | _ => rw
  end%nat.

Abbreviation table := (list row).

Definition rowCount (t : table) : nat := length t.

(** [insertRow(r)]: a row of empty cells before position [r]; ignored
    when [r] is past the end. *)
Definition insertRow (r : nat) (t : table) : table :=
  if (r <=? length t)%nat then take r t ++ empty_row :: drop r t else t.

(** [removeRow(r)]: ignored when there is no such row. *)
Definition removeRow (r : nat) (t : table) : table := delete r t.

(** [item(r, c)] *)
Definition item_at (r c : nat) (t : table) : option item :=
  rw ← t !! r; cell c rw.

(** Whether cell [(r, c)] exists. *)
Definition valid (r c : nat) (t : table) : bool :=
  (r <? length t)%nat && (c <? columnCount)%nat.

(** The cell store of [setItem(r, c, it)] and of [takeItem(r, c)]. *)
Definition put (r c : nat) (v : option item) (t : table) : table :=
  alter (set_cell c v) r t.

End Qt.

(** ** mag_panel.py: the database behind the engine *)

(** A value read from the database is the text [str] gives it, [None]
    for NULL. *)

(** A row of the reference table 'EVE TIN ALL'. *)
Record tin_record := TinRecord {
  tin_ref : option string;
  tin_desc : option string;
  tin_pack : option string;
  tin_price_list : option string;
  tin_price_trimm : option string;
}.

(** A row of a category table: DIV, Disc Sh, PN and the side column. *)
Record option_record := OptionRecord {
  opt_div : option string;
  opt_disc : option string;
  opt_pn : option string;
  opt_side : option string;
}.

(** A row of 'Templates': Type, PN and Qts. *)
Record template_record := TemplateRecord {
  tpl_type : option string;
  tpl_pn : option string;
  tpl_qts : option string;
}.

Record templates_table := TemplatesTable {
  tpl_has_qts : bool;                       (* the table has a Qts column *)
  tpl_rows : list template_record;
}.

Record database := Database {
  db_tin : list tin_record;
  db_options : gmap string (list option_record);  (* by table name; a missing table makes its SELECT raise *)
  db_templates : option templates_table;          (* None: no table, or no Type/PN column *)
}.

(** [pn_num]: the int or the float bound to [:pn_num]. *)
Inductive pynum := PyInt (n : Z) | PyFloat (x : float).

(** What the PostgreSQL server computes for the expressions of the
    reference query: [trim(x)], [regexp_replace(x, pattern, '', 'g')] for
    the pattern the query text carries, [x ~ '^\s*\d+(\.\d+)?\s*'] and
    [x::numeric = :pn_num] ([None] when the cast raises). *)
Class Postgres := {
  pg_trim : string -> string;
  pg_regexp_strip : string -> string;
  pg_numeric_like : string -> bool;
  pg_numeric_eq : string -> pynum -> option bool;
}.

(** ** mag_panel.py: the panel *)

Definition LABEL_TO_TABLE : list (string * string) :=
  [ ("Аппарат ИВЛ", "Block_Main"); ("Лицензия", "License");
    ("Контуры", "Circuits"); ("Клапаны, датчики", "Valves");
    ("Маски", "Masks"); ("Мобильная стойка", "Mobile_Cart");
    ("Автокрепления", "Holders"); ("Увлажнитель", "Humidifier");
    ("Датчик CO2", "CO2"); ("Датчик SpO2", "O2") ].

Definition COL_NO : nat := 0.
Definition COL_PN : nat := 1.
Definition COL_DESC : nat := 2.
Definition COL_QTY : nat := 3.
Definition COL_CTRL : nat := 4.
Definition COL_PACK : nat := 5.
Definition COL_PRICE_LIST : nat := 6.
Definition COL_PRICE_TRIMM : nat := 7.

(** A cached category row: the dict with keys DIV, Disc Sh, PN, SIDE. *)
Record cache_row := CacheRow {
  DIV : string;
  DiscSh : string;
  PN : string;
  SIDE : string;
}.

(** (description, pack, list price, trimm price) *)
Definition tin_hit : Type := string * option string * option string * option string.

Definition no_hit : tin_hit := ("", None, None, None).

Record Panel := mkPanel {
  engine : option database;
  tin_ref_col : option string;
  available_modes : list string;
  current_mode : string;
  side_filter : option string;
  table_cache : gmap string (list cache_row);
  options_cache : gmap (string * string * option string) (gmap string string);
  tin_index : gmap string tin_hit;
  templates : gmap string (list (string * Z));
  table : Qt.table;
  discountSpin : float;
  logisticsSpin : float;
  kursSpin : float;
  lbl_total : string;
  lbl_margin : string;
  _building_table : bool;
}.

Definition set_table (t : Qt.table) (p : Panel) : Panel :=
  mkPanel (engine p) (tin_ref_col p) (available_modes p) (current_mode p)
    (side_filter p) (table_cache p) (options_cache p) (tin_index p)
    (templates p) t (discountSpin p) (logisticsSpin p) (kursSpin p)
    (lbl_total p) (lbl_margin p) (_building_table p).

Definition set_labels (total margin : string) (p : Panel) : Panel :=
  mkPanel (engine p) (tin_ref_col p) (available_modes p) (current_mode p)
    (side_filter p) (table_cache p) (options_cache p) (tin_index p)
    (templates p) (table p) (discountSpin p) (logisticsSpin p) (kursSpin p)
    total margin (_building_table p).

Definition set_building (b : bool) (p : Panel) : Panel :=
  mkPanel (engine p) (tin_ref_col p) (available_modes p) (current_mode p)
    (side_filter p) (table_cache p) (options_cache p) (tin_index p)
    (templates p) (table p) (discountSpin p) (logisticsSpin p) (kursSpin p)
    (lbl_total p) (lbl_margin p) b.

Definition set_spins (d l k : float) (p : Panel) : Panel :=
  mkPanel (engine p) (tin_ref_col p) (available_modes p) (current_mode p)
    (side_filter p) (table_cache p) (options_cache p) (tin_index p)
    (templates p) (table p) d l k
    (lbl_total p) (lbl_margin p) (_building_table p).

Definition set_engine (e : option database) (p : Panel) : Panel :=
  mkPanel e (tin_ref_col p) (available_modes p) (current_mode p)
    (side_filter p) (table_cache p) (options_cache p) (tin_index p)
    (templates p) (table p) (discountSpin p) (logisticsSpin p) (kursSpin p)
    (lbl_total p) (lbl_margin p) (_building_table p).

Definition set_detected (modes : list string) (ref_col : option string) (p : Panel)
    : Panel :=
  mkPanel (engine p) ref_col modes (current_mode p)
    (side_filter p) (table_cache p) (options_cache p) (tin_index p)
    (templates p) (table p) (discountSpin p) (logisticsSpin p) (kursSpin p)
    (lbl_total p) (lbl_margin p) (_building_table p).

Definition set_mode_fields (m : string) (s : option string) (p : Panel) : Panel :=
  mkPanel (engine p) (tin_ref_col p) (available_modes p) m s
    (table_cache p) (options_cache p) (tin_index p)
    (templates p) (table p) (discountSpin p) (logisticsSpin p) (kursSpin p)
    (lbl_total p) (lbl_margin p) (_building_table p).

Definition set_caches (tc : gmap string (list cache_row))
    (oc : gmap (string * string * option string) (gmap string string))
    (ti : gmap string tin_hit) (p : Panel) : Panel :=
  mkPanel (engine p) (tin_ref_col p) (available_modes p) (current_mode p)
    (side_filter p) tc oc ti
    (templates p) (table p) (discountSpin p) (logisticsSpin p) (kursSpin p)
    (lbl_total p) (lbl_margin p) (_building_table p).

Definition set_templates (ts : gmap string (list (string * Z))) (p : Panel) : Panel :=
  mkPanel (engine p) (tin_ref_col p) (available_modes p) (current_mode p)
    (side_filter p) (table_cache p) (options_cache p) (tin_index p)
    ts (table p) (discountSpin p) (logisticsSpin p) (kursSpin p)
    (lbl_total p) (lbl_margin p) (_building_table p).

(** The panel as [__init__] leaves it. *)
Definition init_panel : Panel :=
  mkPanel None None ["EVE"; "S"; "F"] "EVE" None ∅ ∅ ∅ ∅ [] 0%float 1%float 1%float
    "Итого: 0.00" "Маржа: —" false.

Section PanelCode.
Context `{Python} `{Postgres}.

(** *** Caches *)

(** The dict [_preload_all_db] stores for a category row. *)
Definition cache_row_of (r : option_record) : cache_row :=
  CacheRow (Text.strip (default "" (opt_div r)))
           (Text.strip (default "" (opt_disc r)))
           (norm_ref (opt_pn r))
           (match opt_side r with
            | Some s => Text.strip s
            | None => ""
            end).

(** Whether [_build_options_cache] skips a row for its side:
    [side and r.get("SIDE") and r["SIDE"].strip().lower() != side.strip().lower()] *)
Definition side_mismatch (side : option string) (r : cache_row) : bool :=
  match side with
  | None => false
  | Some s =>
      negb (Text.is_empty s) && negb (Text.is_empty (SIDE r)) &&
      negb (String.eqb (str_lower (Text.strip (SIDE r))) (str_lower (Text.strip s)))
  end.

(** One turn of the loop of [_build_options_cache]. *)
Definition options_step (want_mode : string) (side : option string)
    (mapping : gmap string string) (r : cache_row) : gmap string string :=
  let div := str_lower (Text.strip (DIV r)) in
  if negb (String.eqb div want_mode) then mapping
  else if side_mismatch side r then mapping
  else
    let disc := DiscSh r in
    let pn := PN r in
    if negb (Text.is_empty disc) && negb (Text.is_empty pn)
       && negb (bool_decide (is_Some (mapping !! disc)))
    then <[disc := pn]> mapping
    else mapping.

Definition options_mapping (rows : list cache_row) (mode : string)
    (side : option string) : gmap string string :=
  let want_mode := str_lower (Text.strip mode) in
  foldl (options_step want_mode side) ∅ rows.

Definition _build_options_cache (tbl mode : string) (side : option string)
    (p : Panel) : Panel :=
  let rows := default [] (table_cache p !! tbl) in
  let mapping := options_mapping rows mode side in
  set_caches (table_cache p) (<[(tbl, mode, side) := mapping]> (options_cache p))
    (tin_index p) p.

(** The value [_preload_all_db] stores under each key of a reference
    row. *)
Definition hit_of (r : tin_record) : tin_hit :=
  (default "" (tin_desc r), tin_pack r, tin_price_list r, tin_price_trimm r).

(** The keys of a reference row:
    [{norm_ref(ref), str(ref).strip(), digits_only(str(ref))}] *)
Definition index_keys (ref : string) : list string :=
  [norm_ref (Some ref); Text.strip ref; digits_only (Some ref)].

Definition index_step (idx : gmap string tin_hit) (r : tin_record)
    : gmap string tin_hit :=
  match tin_ref r with
  | None => idx
  | Some ref => foldl (fun m k => <[k := hit_of r]> m) idx (index_keys ref)
  end.

Definition build_tin_index (rows : list tin_record) : gmap string tin_hit :=
  foldl index_step ∅ rows.

Definition SIDES : list (option string) := [None; Some "прав"; Some "лев"].

(** [_preload_all_db] (each SELECT taken to succeed on the tables the
    database has). *)
Definition _preload_all_db (p : Panel) : Panel :=
  let p := set_caches ∅ ∅ ∅ p in
  match engine p with
  | None => p
  | Some db =>
      let p :=
        foldl (fun p '(_, tbl) =>
          let rows := cache_row_of <$> default [] (db_options db !! tbl) in
          let p := set_caches (<[tbl := rows]> (table_cache p)) (options_cache p)
                     (tin_index p) p in
          foldl (fun p mode =>
            foldl (fun p side => _build_options_cache tbl mode side p) p SIDES)
            p (available_modes p))
          p LABEL_TO_TABLE in
      set_caches (table_cache p) (options_cache p) (build_tin_index (db_tin db)) p
  end.

(** *** Templates *)

(** The quantity of a template row: [int(float(raw_qts))], 1 when NULL,
    when the conversion raises, or when there is no Qts column. *)
Definition template_qty (has_qts : bool) (raw_qts : option string) : Z :=
  if has_qts then
    match raw_qts with
    | None => 1
    | Some raw =>
        match float_of_str raw with
        | Some f => default 1 (Py.int_of_float f)
        | None => 1
        end
    end
  else 1.

(** One turn of the loop of [_preload_templates]. *)
Definition template_step (has_qts : bool) (ts : gmap string (list (string * Z)))
    (r : template_record) : gmap string (list (string * Z)) :=
  let t := Text.strip (default "" (tpl_type r)) in
  let pn := norm_ref (tpl_pn r) in
  if Text.is_empty t || Text.is_empty pn then ts
  else
    let q := template_qty has_qts (tpl_qts r) in
    let key := str_lower t in
    <[key := default [] (ts !! key) ++ [(pn, Py.at_least_one q)]]> ts.

Definition _preload_templates (p : Panel) : Panel :=
  let p := set_templates ∅ p in
  match engine p with
  | None => p
  | Some db =>
      match db_templates db with
      | None => p
      | Some tpl =>
          set_templates (foldl (template_step (tpl_has_qts tpl)) ∅ (tpl_rows tpl)) p
      end
  end.

(** *** Mode *)

(** How a call ends, and the panel as the call leaves it: what was
    assigned before an exception stays assigned. *)
Definition ended : Type := exc unit * Panel.

(** [set_mode]: the two fields are assigned; then [self._rebuild_left()]
    raises AttributeError, no class of the program defining such a method,
    and the status line after it is not reached. *)
Definition set_mode (mode : string) (side : option string) (p : Panel) : ended :=
  let m := Text.strip mode in
  let p := if String.eqb (str_lower m) "f" then set_mode_fields m side p
           else set_mode_fields m None p in
  (Raise "AttributeError", p).

(** [connect_db] on a server that answers and holds [db], with a
    reference table of two columns or more; [modes] and [ref_col] are what
    [_load_modes] and [_detect_tin_columns] leave in [available_modes] and
    [tin_ref_col]. The caches, the index and the templates are loaded;
    [set_mode] then raises, and the [except] branch drops the engine and
    returns [False]. *)
Definition connect_db (db : database) (modes : list string) (ref_col : string)
    (p : Panel) : bool * Panel :=
  let p := set_engine (Some db) p in
  let p := set_detected modes (Some ref_col) p in
  let p := _preload_all_db p in
  let p := _preload_templates p in
  match set_mode (hd "EVE" (available_modes p)) None p with
  | (Ret _, p) => (true, p)
  | (Raise _, p) => (false, set_engine None p)
  end.

(** *** Reference lookup *)

(** [pn_num]: [float(pn_text)], as an int when it is one. *)
Definition pn_number (pn_text : string) : option pynum :=
  match float_of_str pn_text with
  | None => None
  | Some f =>
      if Py.is_integer f
      then PyInt <$> Py.int_of_float f
      else Some (PyFloat f)
  end.

(** The WHERE clause of the reference query on one row, its disjuncts
    tried from the left; the numeric disjunct is present only when
    [pn_num] is. *)
Definition where_matches (pn_text pn_digits : string) (pn_num : option pynum)
    (r : tin_record) : exc bool :=
  match tin_ref r with
  | None => Ret false
  | Some ref =>
      if String.eqb (pg_trim ref) pn_text then Ret true
      else if String.eqb (pg_regexp_strip ref) pn_digits then Ret true
      else
        match pn_num with
        | None => Ret false
        | Some n =>
            if pg_numeric_like ref
            then or_raise "DataError" (pg_numeric_eq ref n)
            else Ret false
        end
  end.

(** [... LIMIT 1] with [fetchone()]: the first row that satisfies the
    clause, the rows taken in table order. *)
Fixpoint fetchone (cond : tin_record -> exc bool) (rows : list tin_record)
    : exc (option tin_record) :=
  match rows with
  | [] => Ret None
  | r :: rows' =>
      b ← cond r;
      if b : bool then Ret (Some r) else fetchone cond rows'
  end.

Definition truthy_str (s : option string) : bool :=
  match s with
  | Some s => negb (Text.is_empty s)
  | None => false
  end.

Definition _fetch_tin_by_pn (pn : string) (p : Panel) : tin_hit :=
  match engine p with
  | None => no_hit
  | Some db =>
      if Text.is_empty pn || negb (truthy_str (tin_ref_col p)) then no_hit
      else
        let pn_text := Text.replace "," "." (Text.strip pn) in
        let pn_digits := digits_only (Some pn_text) in
        let pn_num := pn_number pn_text in
        match fetchone (where_matches pn_text pn_digits pn_num) (db_tin db) with
        | Ret (Some row) => hit_of row
        | Ret None | Raise _ => no_hit
        end
  end.

(** [a or b] on the results of [dict.get] (a stored tuple is never
    falsy). *)
Definition or_else {A} (a b : option A) : option A :=
  match a with
  | Some _ => a
  | None => b
  end.

(** The lookup at the head of [_add_row_by_pn]: the query, then the
    index when the query gave no description. *)
Definition reference_lookup (pn : string) (p : Panel) : tin_hit :=
  let '(desc, pack, price_list_s, price_trm_s) := _fetch_tin_by_pn pn p in
  if Text.is_empty desc then
    let hit := or_else (tin_index p !! pn)
                 (or_else (tin_index p !! norm_ref (Some pn))
                          (tin_index p !! digits_only (Some pn))) in
    match hit with
    | Some h => h
    | None => (desc, pack, price_list_s, price_trm_s)
    end
  else (desc, pack, price_list_s, price_trm_s).

(** *** The words of the specification for the reference lookup *)

(** The query selects record [r] for [pn]: [r] is the first record of the
    table that satisfies the WHERE clause, and the clause is false, without
    a failing cast, on every record before it. *)
Definition query_selects (pn : string) (db : database) (r : tin_record) : Prop :=
  let pn_text := Text.replace "," "." (Text.strip pn) in
  let cond := where_matches pn_text (digits_only (Some pn_text)) (pn_number pn_text) in
  exists before after,
    db_tin db = before ++ r :: after /\
    cond r = Ret true /\
    Forall (fun x => cond x = Ret false) before.

(** The panel has an engine and a reference column, and its query
    selects record [r] for [pn]. *)
Definition picked (pn : string) (p : Panel) (r : tin_record) : Prop :=
  exists db, engine p = Some db /\ truthy_str (tin_ref_col p) = true /\
             query_selects pn db r.

(** Record [r] has the index key [k]: [k] is one of the keys
    [_preload_all_db] files the record under. *)
Definition keyed (k : string) (r : tin_record) : Prop :=
  exists ref, tin_ref r = Some ref /\ k ∈ index_keys ref.

(** The index holds record [r] under one of the three forms of [pn]: one
    of [pn], [norm_ref(pn)], [digits_only(pn)] is one of the keys
    [norm_ref(ref)], [ref.strip()], [digits_only(ref)] of [r]. *)
Definition index_holds (pn : string) (r : tin_record) : Prop :=
  exists ref k,
    tin_ref r = Some ref /\
    k ∈ [pn; norm_ref (Some pn); digits_only (Some pn)] /\
    k ∈ index_keys ref.

(** Record [r] answers the lookup of [pn] on panel [p], whose index was
    loaded from [rows]: the query selects it, or the index holds it. *)
Definition lookup_match (pn : string) (p : Panel) (rows : list tin_record)
    (r : tin_record) : Prop :=
  picked pn p r \/ (r ∈ rows /\ index_holds pn r).

(** The three matches the specification names, form against the same
    form: the trimmed texts are equal, the digits-only texts are equal, or
    both texts are numbers and the numbers are equal. *)
Definition numeric_equivalent (pn ref : string) : bool :=
  match float_of_str (Text.replace "," "." (Text.strip pn)),
        float_of_str (Text.replace "," "." (Text.strip ref)) with
  | Some x, Some y => PrimFloat.eqb x y
  | _, _ => false
  end.

Definition spec_match (pn ref : string) : bool :=
  String.eqb (Text.strip pn) (Text.strip ref)
  || String.eqb (digits_only (Some pn)) (digits_only (Some ref))
  || numeric_equivalent pn ref.

(** *** The words of the specification for the caches *)

(** A cached row qualifies for (mode, side): its division equals the
    mode, both trimmed and lower-cased; its label and its part number are
    not empty; and, when a side is requested, its side field is empty or
    equals the requested side, both trimmed and lower-cased. *)
Definition option_qualifies (mode : string) (side : option string) (r : cache_row)
    : bool :=
  String.eqb (str_lower (Text.strip (DIV r))) (str_lower (Text.strip mode))
  && negb (Text.is_empty (DiscSh r))
  && negb (Text.is_empty (PN r))
  && match side with
     | Some s =>
         Text.is_empty s || Text.is_empty (SIDE r)
         || String.eqb (str_lower (Text.strip (SIDE r))) (str_lower (Text.strip s))
     | None => true
     end.

(** The quantity a template row states: the number in its Qts column,
    cut to an integer; none when the table has no such column, the value
    is missing, or it does not parse as a number. *)
Definition stated_quantity (has_qts : bool) (r : template_record) : option Z :=
  if has_qts
  then raw ← tpl_qts r; f ← float_of_str raw; Py.int_of_float f
  else None.

(** The (part number, quantity) pairs the template table holds for the
    name [T], in table order: the rows whose name, trimmed and
    lower-cased, is that of [T]; rows with an empty name or an empty
    normalised part number are skipped; a quantity that is missing or
    does not parse is 1, and every quantity is at least 1. *)
Definition template_pairs (tpl : templates_table) (T : string) : list (string * Z) :=
  omap (fun r =>
          let name := Text.strip (default "" (tpl_type r)) in
          let pn := norm_ref (tpl_pn r) in
          if Text.is_empty name || Text.is_empty pn then None
          else if String.eqb (str_lower name) (str_lower (Text.strip T))
               then Some (pn, match stated_quantity (tpl_has_qts tpl) r with
                              | Some q => Z.max 1 q
                              | None => 1
                              end)
               else None)
       (tpl_rows tpl).

End PanelCode.

Section PanelGrid.
Context `{Python} `{Postgres}.

(** *** Totals *)

(** The quantity [_recalc_totals] reads from a row:
    [int(float((item.text() or "0").replace(",", ".")))], 0 when anything
    raises (no item, not a number, an infinity or a NaN). *)
Definition row_qty (rw : Qt.row) : Z :=
  match Qt.cell COL_QTY rw with
  | None => 0
  | Some it =>
      let s := if Text.is_empty (Qt.text it) then "0" else Qt.text it in
      match float_of_str (Text.replace "," "." s) with
      | Some f => default 0 (Py.int_of_float f)
      | None => 0
      end
  end.

(** [float(it_list.data(USERROLE_LIST_PRICE) or 0.0) if it_list else 0.0] *)
Definition row_list_pu (rw : Qt.row) : float :=
  match Qt.cell COL_PRICE_LIST rw with
  | Some it => Py.or_zero (Qt.list_price it)
  | None => 0%float
  end.

(** [float(it_trm.data(USERROLE_BASE_TRIMM) or 0.0) if it_trm else 0.0] *)
Definition row_trm_base (rw : Qt.row) : float :=
  match Qt.cell COL_PRICE_TRIMM rw with
  | Some it => Py.or_zero (Qt.base_trimm it)
  | None => 0%float
  end.

(** One turn of the loop of [_recalc_totals] on
    [(list_total, trm_total)]. *)
Definition totals_step (L : float) (acc : float * float) (rw : Qt.row)
    : float * float :=
  let qty := Py.float_of_int (row_qty rw) in
  let list_pu := row_list_pu rw in
  let trm_base := row_trm_base rw in
  (fst acc + qty * list_pu, snd acc + qty * trm_base * L)%float.

Definition total_text (total_after_disc_conv : float) : string :=
  ("Итого: " ++ Py.format_2f total_after_disc_conv)%string.

Definition margin_text (total_after_disc_conv trm_total_conv : float) : string :=
  if (0 <? trm_total_conv)%float then
    let margin := ((total_after_disc_conv - trm_total_conv) / trm_total_conv)%float in
    ("Маржа: " ++ Py.format_2f (margin * 100) ++ "%")%string
  else "Маржа: —".

Definition _recalc_totals (p : Panel) : Panel :=
  let disc := (1 - discountSpin p / 100)%float in
  let L := logisticsSpin p in
  let K := kursSpin p in
  let totals := foldl (totals_step L) (0, 0)%float (table p) in
  let list_total := fst totals in
  let trm_total := snd totals in
  let total_after_disc := (list_total * disc)%float in
  let total_after_disc_conv := (total_after_disc * K)%float in
  let trm_total_conv := (trm_total * K)%float in
  set_labels (total_text total_after_disc_conv)
             (margin_text total_after_disc_conv trm_total_conv) p.

(** *** Signals *)

Definition _on_table_item_changed (p : Panel) : Panel :=
  if _building_table p then p else _recalc_totals p.

(** [self.table.setItem(r, c, it)]: the cell is stored and, for an item
    put in an existing cell, [itemChanged] runs its slot. *)
Definition setItem (r c : nat) (it : option Qt.item) (p : Panel) : Panel :=
  let p' := set_table (Qt.put r c it (table p)) p in
  match it with
  | Some _ => if Qt.valid r c (table p) then _on_table_item_changed p' else p'
  | None => p'
  end.

(** [self.table.takeItem(r, c)] *)
Definition takeItem (r c : nat) (p : Panel) : option Qt.item * Panel :=
  (Qt.item_at r c (table p), set_table (Qt.put r c None (table p)) p).

(** [item.setText(s)] on the item of cell [(r, c)] *)
Definition setText (r c : nat) (s : string) (p : Panel) : Panel :=
  match Qt.item_at r c (table p) with
  | Some it =>
      _on_table_item_changed
        (set_table (Qt.put r c (Some (Qt.setText s it)) (table p)) p)
  | None => p
  end.

(** *** Rows *)

Definition str_of_nat (n : nat) : string := Text.str_of_int (Z.of_nat n).

Definition _renumber (p : Panel) : Panel :=
  foldl (fun p r => setItem r COL_NO (Some (Qt.new_item (str_of_nat (r + 1)))) p)
        p (seq 0 (Qt.rowCount (table p))).

(** The eight [setItem] calls of [_add_row_by_pn] on the new row. *)
Definition fill_row (row : nat) (pn desc : string) (qty : Z) (pack : option string)
    (list_price trm_base trm_display : option float) (p : Panel) : Panel :=
  let p := setItem row COL_NO (Some (Qt.new_item (str_of_nat (row + 1)))) p in
  let p := setItem row COL_PN (Some (Qt.new_item pn)) p in
  let p := setItem row COL_DESC (Some (Qt.new_item desc)) p in
  let p := setItem row COL_QTY
             (Some (Qt.new_item (Text.str_of_int (Py.at_least_one qty)))) p in
  let p := setItem row COL_CTRL (Some (Qt.new_item "1")) p in
  let p := setItem row COL_PACK (Some (Qt.new_item (default "" pack))) p in
  let it_list := Qt.Item (fmt_money list_price) None
                   (Some (default 0%float list_price)) in
  let p := setItem row COL_PRICE_LIST (Some it_list) p in
  let it_trm := Qt.Item (fmt_money trm_display)
                  (Some (default 0%float trm_base)) None in
  setItem row COL_PRICE_TRIMM (Some it_trm) p.

Definition _add_row_by_pn (pn : string) (qty : Z) (p : Panel) : nat * Panel :=
  if Text.is_empty pn then (0%nat, p)
  else
    let '(desc, pack, price_list_s, price_trm_s) := reference_lookup pn p in
    let list_price := parse_money price_list_s in
    let trm_base := parse_money price_trm_s in
    let trm_display := (fun b => b * logisticsSpin p)%float <$> trm_base in
    let p := set_building true p in
    let row := Qt.rowCount (table p) in
    let p := set_table (Qt.insertRow row (table p)) p in
    let p := fill_row row pn desc qty pack list_price trm_base trm_display p in
    let p := set_building false p in
    (1%nat, p).

(** [sorted({...}, reverse=True)]: each index once, the largest first. *)
Fixpoint insert_desc (x : nat) (l : list nat) : list nat :=
  match l with
  | [] => [x]
  | y :: l' =>
      if (y <? x)%nat then x :: l
      else if (x =? y)%nat then l
      else y :: insert_desc x l'
  end.

Definition sorted_desc (l : list nat) : list nat := foldr insert_desc [] l.

(** [delete_selected]; [selected] are the rows of the selected
    indexes. *)
Definition delete_selected (selected : list nat) (p : Panel) : Panel :=
  let rows := sorted_desc selected in
  let p := foldl (fun p r => set_table (Qt.removeRow r (table p)) p) p rows in
  let p := _renumber p in
  _recalc_totals p.

Definition _clear_cat_numbers (p : Panel) : Panel :=
  foldl (fun p r => setItem r COL_PN (Some (Qt.new_item "")) p)
        p (seq 0 (Qt.rowCount (table p))).

(** [it and it.text().strip()] for the part-number cell of row [r] *)
Definition has_cat (r : nat) (p : Panel) : bool :=
  match Qt.item_at r COL_PN (table p) with
  | Some it => negb (Text.is_empty (Text.strip (Qt.text it)))
  | None => false
  end.

(** The body of the [if] of [_move_row_with_cat_down] for row [r]. *)
Definition move_row_down (r : nat) (p : Panel) : Panel :=
  let p := set_table (Qt.insertRow (r + 2) (table p)) p in
  let p := foldl (fun p c =>
                    let '(src, p) := takeItem r c p in
                    setItem (r + 2) c src p)
                 p (seq 0 Qt.columnCount) in
  set_table (Qt.removeRow r (table p)) p.

Definition _move_row_with_cat_down (p : Panel) : Panel :=
  let p :=
    match List.find (fun r => has_cat r p) (seq 0 (Qt.rowCount (table p) - 1)) with
    | Some r => move_row_down r p
    | None => p
    end in
  let p := _renumber p in
  _recalc_totals p.

(** One turn of the loop of [_on_logistics_changed] for row [r]. *)
Definition rescale_row (L : float) (p : Panel) (r : nat) : Panel :=
  match Qt.item_at r COL_PRICE_TRIMM (table p) with
  | None => p
  | Some it_trm =>
      let base := default 0%float (Qt.base_trimm it_trm) in
      let disp := if Py.truthy base then (base * L)%float else 0%float in
      setText r COL_PRICE_TRIMM
        (fmt_money (if Py.truthy base then Some disp else None)) p
  end.

Definition _on_logistics_changed (p : Panel) : Panel :=
  let p := set_building true p in
  let L := logisticsSpin p in
  let p := foldl (rescale_row L) p (seq 0 (Qt.rowCount (table p))) in
  let p := set_building false p in
  _recalc_totals p.

(** *** Adding lines *)

Definition dict_get (k : string) (d : list (string * string)) : option string :=
  snd <$> List.find (fun kv => String.eqb (fst kv) k) d.

(** [add_to_summary]; [option] is the combo's text and [spin_value] the
    spin box's value. *)
Definition add_to_summary (label option : string) (spin_value : Z) (p : Panel)
    : Panel :=
  let qty := Py.at_least_one (if spin_value =? 0 then 1 else spin_value) in
  let pn :=
    match dict_get label LABEL_TO_TABLE with
    | Some table_name =>
        let pn_map :=
          default ∅ (options_cache p !! (table_name, current_mode p, side_filter p)) in
        default "" (pn_map !! option)
    | None => ""
    end in
  let '(_, p) := _add_row_by_pn pn qty p in
  let p := _renumber p in
  _recalc_totals p.

(** [_apply_template] *)
Definition _apply_template (type_name : string) (p : Panel) : Panel :=
  let p := if bool_decide (templates p = ∅) then _preload_templates p else p in
  let items := default [] (templates p !! str_lower (Text.strip type_name)) in
  match items with
  | [] => p
  | _ =>
      let '(added, p) :=
        foldl (fun '(added, p) '(pn, qts) =>
                 let '(n, p) := _add_row_by_pn pn qts p in ((added + n)%nat, p))
              (0%nat, p) items in
      if (0 <? added)%nat then _renumber p else p
  end.

Definition _on_template_button (type_name : string) (mode side : option string)
    (p : Panel) : ended :=
  if truthy_str mode then
    match set_mode (default "" mode) side p with
    | (Ret _, p) => (Ret tt, _apply_template type_name p)
    | (Raise e, p) => (Raise e, p)
    end
  else (Ret tt, _apply_template type_name p).

(** *** What the window lets the user do to the summary *)

(** The template buttons of [_make_actions_box]: the name, the mode and
    the side each passes to [_on_template_button]. *)
Definition TEMPLATE_BUTTONS : list (string * option string * option string) :=
  [ ("EVE TR", Some "EVE", None); ("S", Some "S", None);
    ("F прав", Some "F", Some "прав"); ("EVE NEO", Some "EVE", None);
    ("F лев", Some "F", Some "лев"); ("EVE IN", Some "EVE", None);
    ("EVE ALL", Some "EVE", None) ].

(** A click on a template button or on a mode button, the three buttons
    under the table, a text typed into a cell, and a value set in one of
    the three spin boxes. *)
Inductive event :=
| TemplateButton (type_name : string) (mode side : option string)
| ModeButton (mode : string)
| DeleteSelected (selected : list nat)
| ClearCatNumbers
| MoveRowDown
| EditCell (r c : nat) (s : string)
| SetDiscount (v : float)
| SetLogistics (v : float)
| SetKurs (v : float).

(** Typing [s] into cell [(r, c)]: the item's text changes (an empty
    cell gets an item) and [itemChanged] runs its slot. *)
Definition edit_cell (r c : nat) (s : string) (p : Panel) : Panel :=
  match Qt.item_at r c (table p) with
  | Some _ => setText r c s p
  | None => setItem r c (Some (Qt.new_item s)) p
  end.

(** The slot each event reaches, as [_build_ui], [_make_actions_box] and
    [_rebuild_mode_strip] connect them. No signal of the three spin boxes
    is connected: a new value is held by the box and nothing runs. *)
Definition handle (e : event) (p : Panel) : ended :=
  match e with
  | TemplateButton t m s => _on_template_button t m s p
  | ModeButton m => set_mode m None p
  | DeleteSelected sel => (Ret tt, delete_selected sel p)
  | ClearCatNumbers => (Ret tt, _clear_cat_numbers p)
  | MoveRowDown => (Ret tt, _move_row_with_cat_down p)
  | EditCell r c s => (Ret tt, edit_cell r c s p)
  | SetDiscount v => (Ret tt, set_spins v (logisticsSpin p) (kursSpin p) p)
  | SetLogistics v => (Ret tt, set_spins (discountSpin p) v (kursSpin p) p)
  | SetKurs v => (Ret tt, set_spins (discountSpin p) (logisticsSpin p) v p)
  end.

(** The panel an event leaves. *)
Definition after (e : event) (p : Panel) : Panel := snd (handle e p).

(** The operations on the summary: an event of the window, or a call of
    one of the methods that insert lines, [add_to_summary] (which no
    signal is connected to), [_add_row_by_pn] and [_apply_template]. *)
Inductive operation :=
| Window (e : event)
| AddToSummary (label option : string) (spin_value : Z)
| AddRowByPn (pn : string) (qty : Z)
| ApplyTemplate (type_name : string).


(** *** The words of the specification for the grid *)

(** A sum of floats, taken from 0.0 in list order. *)
Definition fsum (l : list float) : float := foldl PrimFloat.add 0%float l.

(** The prices a line stores: the list price and the base trimm
    price. *)
Definition stored_prices (rw : Qt.row) : option float * option float :=
  (it ← Qt.c_price_list rw; Qt.list_price it,
   it ← Qt.c_price_trimm rw; Qt.base_trimm it).

(** The quantity a line shows: the number in its quantity cell, a comma
    read as the decimal point, cut to an integer; none when the cell does
    not parse as a number. *)
Definition parsed_quantity (rw : Qt.row) : option Z :=
  it ← Qt.c_qty rw;
  f ← float_of_str (Text.replace "," "." (Qt.text it));
  Py.int_of_float f.

(** A stored price as a number: 0.0 when the line stores none, or a
    zero. *)
Definition price_number (stored : option float) : float :=
  match stored with
  | Some x => if PrimFloat.eqb x 0 then 0%float else x
  | None => 0%float
  end.

(** q_i, p_i and b_i: the parsed quantity, 0 for a cell that fails to
    parse, the stored list unit price and the stored base trimm price. *)
Definition line_q (rw : Qt.row) : float :=
  Py.float_of_int (default 0 (parsed_quantity rw)).
Definition line_p (rw : Qt.row) : float := price_number (fst (stored_prices rw)).
Definition line_b (rw : Qt.row) : float := price_number (snd (stored_prices rw)).

(** What the totals need of the builtin [float]: the empty text is no
    number, and "0" is zero. *)
Definition float_reads_zero : Prop :=
  float_of_str "" = None /\ (float_of_str "0" ≫= Py.int_of_float) = Some 0.

(** listTotal = (sum of q_i * p_i) * (1 - d/100) * K *)
Definition list_total_of (t : Qt.table) (d K : float) : float :=
  (fsum ((fun rw => line_q rw * line_p rw) <$> t) * (1 - d / 100) * K)%float.

(** trimmTotal = (sum of q_i * b_i * L) * K *)
Definition trimm_total_of (t : Qt.table) (L K : float) : float :=
  (fsum ((fun rw => line_q rw * line_b rw * L) <$> t) * K)%float.

(** The labels show the totals of the table and the settings as they
    are now. *)
Definition labels_fresh (p : Panel) : Prop :=
  lbl_total p = lbl_total (_recalc_totals p) /\
  lbl_margin p = lbl_margin (_recalc_totals p).

(** The panel with its grid (table, labels, flag) blanked: what the
    slots of the grid leave alone. *)
Definition outside_grid (p : Panel) : Panel :=
  set_labels "" "" (set_building false (set_table [] p)).

(** The table with the sequence numbers rewritten, as [_renumber] leaves
    it. *)
Definition renumbered (t : Qt.table) : Qt.table :=
  imap (fun i rw => Qt.set_cell COL_NO (Some (Qt.new_item (str_of_nat (i + 1)))) rw) t.

(** The text [_on_logistics_changed] displays for a stored base. *)
Definition rescaled (L : float) (base : option float) : string :=
  let b := default 0%float base in
  fmt_money (if Py.truthy b then Some (b * L)%float else None).

(** The row [_add_row_by_pn] builds at position [n] for a part number, a
    quantity, what the reference lookup gave and the multiplier [L]. *)
Definition new_line (n : nat) (pn : string) (qty : Z) (hit : tin_hit) (L : float)
    : Qt.row :=
  let '(desc, pack, price_list_s, price_trm_s) := hit in
  let list_price := parse_money price_list_s in
  let trm_base := parse_money price_trm_s in
  let trm_display := (fun b => b * L)%float <$> trm_base in
  Qt.Row (Some (Qt.new_item (str_of_nat (n + 1))))
         (Some (Qt.new_item pn))
         (Some (Qt.new_item desc))
         (Some (Qt.new_item (Text.str_of_int (Py.at_least_one qty))))
         (Some (Qt.new_item "1"))
         (Some (Qt.new_item (default "" pack)))
         (Some (Qt.Item (fmt_money list_price) None (Some (default 0%float list_price))))
         (Some (Qt.Item (fmt_money trm_display) (Some (default 0%float trm_base)) None)).

(** The rows [_apply_template] appends for the pairs [items], the first
    at position [n]; a pair without a part number gives no row. *)
Fixpoint template_lines (n : nat) (items : list (string * Z)) (p : Panel)
    : list Qt.row :=
  match items with
  | [] => []
  | (pn, q) :: items' =>
      if Text.is_empty pn then template_lines n items' p
      else new_line n pn q (reference_lookup pn p) (logisticsSpin p)
             :: template_lines (S n) items' p
  end.


(** The part number and the quantity a line shows. *)
Definition line_key (rw : Qt.row) : option string * option string :=
  (Qt.text <$> Qt.c_pn rw, Qt.text <$> Qt.c_qty rw).

(** A row after [_on_logistics_changed]: the text of its trimm cell is
    the rescaled base. *)
Definition rescaled_row (L : float) (rw : Qt.row) : Qt.row :=
  match Qt.c_price_trimm rw with
  | Some it =>
      Qt.set_cell COL_PRICE_TRIMM
        (Some (Qt.setText (rescaled L (Qt.base_trimm it)) it)) rw
  | None => rw
  end.

(** Strictly decreasing. *)
Fixpoint decreasing (l : list nat) : Prop :=
  match l with
  | [] => True
  | x :: l' => (forall y, y ∈ l' -> (y < x)%nat) /\ decreasing l'
  end.

(** What makes a line: every cell but the sequence number. *)
Definition line_identity (rw : Qt.row)
    : option Qt.item * option Qt.item * option Qt.item * option Qt.item
      * option Qt.item * option Qt.item * option Qt.item :=
  (Qt.c_pn rw, Qt.c_desc rw, Qt.c_qty rw, Qt.c_ctrl rw, Qt.c_pack rw,
   Qt.c_price_list rw, Qt.c_price_trimm rw).

(** The sequence-number cells 1..[n]. *)
Definition numbering (n : nat) : list (option Qt.item) :=
  (fun i => Some (Qt.new_item (str_of_nat (i + 1)))) <$> seq 0 n.

(** The rows at the positions that are not selected, in order; [i] is
    the position of the first row of [t]. *)
Fixpoint unselected_from (i : nat) (sel : list nat) (t : Qt.table) : Qt.table :=
  match t with
  | [] => []
  | rw :: t' =>
      if bool_decide (i ∈ sel) then unselected_from (S i) sel t'
      else rw :: unselected_from (S i) sel t'
  end.

Definition unselected (sel : list nat) (t : Qt.table) : Qt.table :=
  unselected_from 0 sel t.

(** Whether a row has a non-blank part number. *)
Definition row_has_cat (rw : Qt.row) : bool :=
  match Qt.c_pn rw with
  | Some it => negb (Text.is_empty (Text.strip (Qt.text it)))
  | None => false
  end.

(** The first row with a part number, the last row apart. *)
Definition first_cat_row (t : Qt.table) : option nat :=
  List.find (fun r => match t !! r with Some rw => row_has_cat rw | None => false end)
            (seq 0 (length t - 1)).

(** Rows [r] and [r + 1] exchanged. *)
Definition swap_down (r : nat) (t : Qt.table) : Qt.table :=
  match t !! r, t !! (r + 1)%nat with
  | Some a, Some b => take r t ++ b :: a :: drop (r + 2) t
  | _, _ => t
  end.








(** The events that set one of the three settings. *)
Definition changes_setting (e : event) : bool :=
  match e with
  | SetDiscount _ | SetLogistics _ | SetKurs _ => true
  | _ => false
  end.


End PanelGrid.

(** ** pg_admin_gui.py *)

Module PgAdmin.

(** The class of [col.type], as far as the [isinstance] tests of
    [coerce_value] tell types apart. *)
Inductive sqltype :=
| Boolean | Integer | Float | Numeric | DateTime | Date | Time | OtherType.

Record column := Column {
  col_name : string;
  col_type : sqltype;
}.

(** The messages of the grid, by the box that shows them. *)
Inductive message :=
| EditNeedsSinglePk | BulkNeedsSinglePk | DeleteNeedsSinglePk
| SeveralRowsSelected | NoPkValue | NoPkValues | ChooseColumn
| SaveFailed | BulkFailed | DeleteFailed | QueryFailed.

Inductive ui :=
| ShowInfo (m : message)
| ShowWarning (m : message)
| ShowError (m : message)
| AskYesNo (n : nat).

(** What the user does with a modal dialog. *)
Inductive dialog (A : Type) :=
| Cancelled
| Submitted (a : A).
Arguments Cancelled {A}.
Arguments Submitted {A} a.

Definition TRUE_WORDS : list string := ["true"; "t"; "1"; "yes"; "y"; "on"; "да"].

Section Code.
Context `{Python}.

Inductive value :=
| VNone
| VBool (b : bool)
| VInt (n : Z)
| VFloat (x : float)
| VDateTime (d : datetime)
| VDate (d : date)
| VTime (d : time)
| VStr (s : string).

(** The body of the [try] of [coerce_value]. *)
Definition coerce_typed (t : sqltype) (raw : string) : exc value :=
  match t with
  | Boolean => Ret (VBool (bool_decide (str_lower raw ∈ TRUE_WORDS)))
  | Integer => n ← or_raise "ValueError" (int_of_str raw); Ret (VInt n)
  | Float | Numeric => x ← or_raise "ValueError" (float_of_str raw); Ret (VFloat x)
  | DateTime => d ← or_raise "ValueError" (datetime_fromisoformat raw); Ret (VDateTime d)
  | Date => d ← or_raise "ValueError" (date_fromisoformat raw); Ret (VDate d)
  | Time => d ← or_raise "ValueError" (time_fromisoformat raw); Ret (VTime d)
  | OtherType => Ret (VStr raw)
  end.

Definition coerce_value (col : column) (raw : option string) : exc value :=
  match raw with
  | None => Ret VNone
  | Some raw =>
      if Text.is_empty raw then Ret VNone
      else try_except (coerce_typed (col_type col) raw) (Ret (VStr raw))
  end.

(** A reflected table: its columns and the constrained columns of its
    primary key ([inspector.get_pk_constraint]). *)
Record Table := mkTable {
  tbl_name : string;
  tbl_columns : list column;
  tbl_pk : list string;
}.

(** A fetched row, [dict(r._mapping)]. *)
Definition row : Type := list (string * value).

Definition row_get (k : string) (r : row) : option value :=
  snd <$> List.find (fun kv => String.eqb (fst kv) k) r.

(** The statements the grid sends. *)
Inductive statement :=
| UpdateWhereEq (tbl pk : string) (pk_value : value) (payload : list (string * value))
| UpdateWhereIn (tbl pk : string) (pk_values : list value) (colname : string)
                (new_value : value)
| DeleteWhereIn (tbl pk : string) (pk_values : list value).

(** The database server: a statement run in a transaction gives the new
    contents or raises, leaving the contents as they were; a SELECT gives
    rows or raises. *)
Class Engine := {
  contents : Type;
  execute : statement -> contents -> option contents;
  select_rows : Table -> contents -> option (list row);
}.

Context `{Engine}.

Record App := mkApp {
  engine_db : contents;
  current_table : option Table;          (* what [_get_current_table] gives *)
  current_pk : option string;
  row_cache : list row;                   (* by position in the tree *)
  selection : list nat;                   (* [tree.selection()] *)
}.

Definition _detect_single_pk (tbl : Table) : option string :=
  match tbl_pk tbl with
  | [c] => Some c
  | _ => None
  end.

Definition truthy_pk (pk : option string) : option string :=
  match pk with
  | Some c => if Text.is_empty c then None else Some c
  | None => None
  end.

Definition refresh_rows (a : App) : list ui * App :=
  match current_table a with
  | None => ([], a)
  | Some tbl =>
      let pk := _detect_single_pk tbl in
      match select_rows tbl (engine_db a) with
      | None => ([ShowError QueryFailed],
                 mkApp (engine_db a) (current_table a) pk (row_cache a) (selection a))
      | Some rows => ([], mkApp (engine_db a) (current_table a) pk rows [])
      end
  end.

Definition set_db (d : contents) (a : App) : App :=
  mkApp d (current_table a) (current_pk a) (row_cache a) (selection a).

(** A handler's outcome: the boxes shown, in order, and the new state;
    or an exception that escapes the handler. *)
Definition outcome : Type := exc (list ui * App).

Definition and_refresh (log : list ui) (a : App) : outcome :=
  let '(log', a') := refresh_rows a in Ret (log ++ log', a').

Definition the_table (a : App) : exc Table :=
  or_raise "AttributeError" (current_table a).

(** [EditDialog.on_save], for the texts of the entries by column. *)
Definition edit_payload (tbl : Table) (pk_col : string) (entries : string -> string)
    : exc (list (string * value)) :=
  mapM (fun col =>
          v ← coerce_value col (Some (entries (col_name col)));
          Ret (col_name col, v))
       (filter (fun col => col_name col ≠ pk_col) (tbl_columns tbl)).

(** [on_tree_double_click]; [dlg] is what the user does with the edit
    dialog, if it opens. *)
Definition on_tree_double_click (dlg : dialog (string -> string)) (a : App) : outcome :=
  match selection a with
  | [] => Ret ([], a)
  | iid :: _ =>
      let row := default [] (row_cache a !! iid) in
      match truthy_pk (current_pk a) with
      | None => Ret ([ShowInfo EditNeedsSinglePk], a)
      | Some pk =>
          match row_get pk row with
          | None | Some VNone => Ret ([ShowWarning NoPkValue], a)
          | Some pk_val =>
              tbl ← the_table a;
              match dlg with
              | Cancelled => and_refresh [] a
              | Submitted entries =>
                  payload ← edit_payload tbl pk entries;
                  match execute (UpdateWhereEq (tbl_name tbl) pk pk_val payload)
                                (engine_db a) with
                  | Some d => and_refresh [] (set_db d a)
                  | None => and_refresh [ShowError SaveFailed] a
                  end
              end
          end
      end
  end.

Definition on_edit_selected (dlg : dialog (string -> string)) (a : App) : outcome :=
  match selection a with
  | [] => Ret ([], a)
  | [_] => on_tree_double_click dlg a
  | _ => Ret ([ShowInfo SeveralRowsSelected], a)
  end.

(** The primary-key values of the selected rows that have one. *)
Definition selected_pk_values (pk : string) (a : App) : list value :=
  omap (fun iid => row_get pk (default [] (row_cache a !! iid))) (selection a).

(** [on_bulk_update]; [dlg] is the column picked and the text typed in
    the bulk dialog. *)
Definition on_bulk_update (dlg : dialog (string * string)) (a : App) : outcome :=
  match selection a with
  | [] => Ret ([], a)
  | _ =>
      match truthy_pk (current_pk a) with
      | None => Ret ([ShowInfo BulkNeedsSinglePk], a)
      | Some pk =>
          match selected_pk_values pk a with
          | [] => Ret ([ShowWarning NoPkValues], a)
          | pk_vals =>
              tbl ← the_table a;
              match dlg with
              | Cancelled => and_refresh [] a
              | Submitted (colname, raw) =>
                  if Text.is_empty colname then and_refresh [ShowWarning ChooseColumn] a
                  else
                    col ← or_raise "KeyError"
                          (List.find (fun c => String.eqb (col_name c) colname)
                                     (tbl_columns tbl));
                    new_value ← coerce_value col (Some raw);
                    match execute (UpdateWhereIn (tbl_name tbl) pk pk_vals colname
                                     new_value) (engine_db a) with
                    | Some d => and_refresh [] (set_db d a)
                    | None => and_refresh [ShowError BulkFailed] a
                    end
              end
          end
      end
  end.

(** [on_delete_selected]; [confirm] is the answer to the question. *)
Definition on_delete_selected (confirm : bool) (a : App) : outcome :=
  match selection a with
  | [] => Ret ([], a)
  | sel =>
      match truthy_pk (current_pk a) with
      | None => Ret ([ShowInfo DeleteNeedsSinglePk], a)
      | Some pk =>
          if negb confirm then Ret ([AskYesNo (length sel)], a)
          else
            let pk_vals := selected_pk_values pk a in
            match current_table a with
            | None => Ret ([AskYesNo (length sel); ShowError DeleteFailed], a)
            | Some tbl =>
                match execute (DeleteWhereIn (tbl_name tbl) pk pk_vals)
                              (engine_db a) with
                | Some d =>
                    let '(log, a') := refresh_rows (set_db d a) in
                    Ret (AskYesNo (length sel) :: log, a')
                | None => Ret ([AskYesNo (length sel); ShowError DeleteFailed], a)
                end
            end
      end
  end.

(** The typed value the specification speaks of: what converting [raw]
    to the column's type gives, [None] when the conversion fails. *)
Definition typed_value (t : sqltype) (raw : string) : option value :=
  match t with
  | Boolean => Some (VBool (bool_decide (str_lower raw ∈ TRUE_WORDS)))
  | Integer => VInt <$> int_of_str raw
  | Float | Numeric => VFloat <$> float_of_str raw
  | DateTime => VDateTime <$> datetime_fromisoformat raw
  | Date => VDate <$> date_fromisoformat raw
  | Time => VTime <$> time_fromisoformat raw
  | OtherType => Some (VStr raw)
  end.

(** The state the grid is in once [refresh_rows] has shown table
    [tbl]. *)
Definition showing (tbl : Table) (a : App) : Prop :=
  current_table a = Some tbl /\ current_pk a = _detect_single_pk tbl.

(** The three operations on the selected rows, each with what the user
    answers to its dialog. *)
Inductive operation :=
| DoubleClickRow (dlg : dialog (string -> string))
| EditRow (dlg : dialog (string -> string))
| BulkUpdate (dlg : dialog (string * string))
| DeleteRows (confirm : bool).

Definition run (op : operation) (a : App) : outcome :=
  match op with
  | DoubleClickRow dlg => on_tree_double_click dlg a
  | EditRow dlg => on_edit_selected dlg a
  | BulkUpdate dlg => on_bulk_update dlg a
  | DeleteRows confirm => on_delete_selected confirm a
  end.

End Code.
End PgAdmin.

(** ** Instances for worked examples

    Builtins that agree with Python's on the texts of the examples:
    [str.lower] where the cased letters are ASCII, [float] and [int] on
    unsigned decimals; and a server that keeps nothing. *)

Module Sample.

Definition lower_char (c : ascii) : ascii :=
  let n := N_of_ascii c in
  if ((65 <=? n) && (n <=? 90))%N then ascii_of_N (n + 32) else c.

Fixpoint lower (s : string) : string :=
  match s with
  | EmptyString => EmptyString
  | String c s' => String (lower_char c) (lower s')
  end.

Definition to_prim (x : Float64.t) : float :=
  match x with
  | Float64.Inf => infinity
  | Float64.Fin m e =>
      match m with
      | Z.pos q => SF2Prim (S754_finite false q e)
      | _ => 0%float
      end
  end.

(** [float] on digits with an optional fraction. *)
Definition float_of_decimal (s : string) : option float :=
  match match_decimal s with
  | Some (d, f) => Some (to_prim (Float64.of_decimal d f))
  | None => None
  end.

(** [int] on digits. *)
Definition int_of_decimal (s : string) : option Z :=
  if negb (Text.is_empty s) && Text.all_digits s
  then Some (Text.int_of_digits s) else None.

Definition python : Python := {|
  str_lower := lower;
  float_of_str := float_of_decimal;
  int_of_str := int_of_decimal;
  datetime := string;
  date := string;
  time := string;
  datetime_fromisoformat := fun _ => None;
  date_fromisoformat := fun _ => None;
  time_fromisoformat := fun _ => None;
|}.

(** The server's functions, on the texts of the examples: [trim] strips
    blanks, a text looks numeric when a digit follows its leading blanks,
    and the cast accepts a decimal. *)
Definition numeric_eq (ref : string) (n : pynum) : option bool :=
  match float_of_decimal (Text.strip ref) with
  | None => None
  | Some x =>
      Some match n with
           | PyInt k => PrimFloat.eqb x (Py.float_of_int k)
           | PyFloat y => PrimFloat.eqb x y
           end
  end.

Definition numeric_like (ref : string) : bool :=
  negb (Text.is_empty (fst (Text.span_digits (Text.lstrip ref)))).

(** The pattern of the query text is ['\\D'], a backslash and the
    letter D: the replacement deletes every such pair. *)
Fixpoint strip_pattern (s : string) : string :=
  match s with
  | EmptyString => EmptyString
  | String c s' =>
      match s' with
      | String c' s'' =>
          if (Ascii.eqb c (ascii_of_N 92) && Ascii.eqb c' "D")%bool
          then strip_pattern s''
          else String c (strip_pattern s')
      | EmptyString => s
      end
  end.

Definition postgres : Postgres := {|
  pg_trim := Text.strip;
  pg_regexp_strip := strip_pattern;
  pg_numeric_like := numeric_like;
  pg_numeric_eq := numeric_eq;
|}.

(** A server that counts the statements it ran and has no rows. *)
Definition engine : @PgAdmin.Engine python := {|
  PgAdmin.contents := nat;
  PgAdmin.execute := fun _ d => Some (S d);
  PgAdmin.select_rows := fun _ _ => Some [];
|}.

(** A table whose primary key has two columns, shown with one row, and
    the same with a single key column. *)
Definition composite_table : @PgAdmin.Table := {|
  PgAdmin.tbl_name := "prices";
  PgAdmin.tbl_columns :=
    [PgAdmin.Column "sku" PgAdmin.OtherType; PgAdmin.Column "year" PgAdmin.Integer;
     PgAdmin.Column "price" PgAdmin.Numeric];
  PgAdmin.tbl_pk := ["sku"; "year"];
|}.

Definition one_row : list (@PgAdmin.row python) :=
  [[("sku", PgAdmin.VStr "A1"); ("year", PgAdmin.VInt 2025);
    ("price", PgAdmin.VFloat 10)]].

Definition grid (selected : list nat) : @PgAdmin.App python engine :=
  @PgAdmin.mkApp python engine 0%nat (Some composite_table) None one_row selected.

(** A database of two reference records, one category row and the
    templates "EVE TR" and "S". *)
Definition tin : list tin_record :=
  [ TinRecord (Some "12.0") (Some "Valve") (Some "10") (Some "100") (Some "60");
    TinRecord (Some "A-7") (Some "Mask") None (Some "40,5") (Some "20") ].

Definition db : database :=
  Database tin
    {[ "Valves" := [OptionRecord (Some "EVE") (Some "Valve A") (Some "12.0") None] ]}
    (Some (TemplatesTable true
             [ TemplateRecord (Some "EVE TR") (Some "12.0") (Some "2");
               TemplateRecord (Some " eve tr ") (Some "A-7") None;
               TemplateRecord (Some "S") (Some "12") (Some "5");
               TemplateRecord (Some "s") (Some "A-7") (Some "2.9");
               TemplateRecord (Some "S ") (Some "12,0") (Some "0");
               TemplateRecord (Some "S") (Some "A-7") (Some "many");
               TemplateRecord (Some "S") (Some " ") (Some "3");
               TemplateRecord None (Some "12") (Some "3") ])).

(** The panel as [connect_db] leaves the new panel on that database:
    caches, index and templates loaded, and no engine. *)
Definition loaded : Panel :=
  snd (@connect_db python db ["EVE"; "S"; "F"] "REF" init_panel).

(** The panel after the call [_apply_template("EVE TR")]. *)
Definition quoted : Panel := @_apply_template python postgres "EVE TR" loaded.

End Sample.
(** * Properties *)

(** ** Worked values of [norm_ref] *)

Example norm_ref_ex1 : norm_ref (Some " 12,0 ") = "12". Proof. reflexivity. Qed.
Example norm_ref_ex2 : norm_ref (Some "12.50") = "12.50". Proof. reflexivity. Qed.
Example norm_ref_ex3 : norm_ref (Some "012.00") = "12". Proof. vm_compute. reflexivity. Qed.
Example norm_ref_ex4 : norm_ref (Some "007.0") = "007". Proof. reflexivity. Qed.
Example norm_ref_ex5 : norm_ref (Some "007") = "7". Proof. vm_compute. reflexivity. Qed.
Example norm_ref_ex6 : norm_ref (Some "AB-12") = "AB-12". Proof. reflexivity. Qed.
Example norm_ref_ex7 :
  norm_ref (Some "123456789012345678901234567890") = "123456789012345677877719597056".
Proof. vm_compute. reflexivity. Qed.
Example norm_ref_ex8 : norm_ref (Some "0.99999999999999999999") = "1". Proof. vm_compute. reflexivity. Qed.
Example norm_ref_ex9 : norm_ref (Some "9007199254740993") = "9007199254740992". Proof. vm_compute. reflexivity. Qed.

(** Digits of other scripts are digits, and the no-break space (after
    "007.0" below) and the ideographic space are blanks. *)
Example norm_ref_ex10 : norm_ref (Some "١٢.0") = "١٢". Proof. vm_compute. reflexivity. Qed.
Example norm_ref_ex11 : norm_ref (Some "١٢") = "12". Proof. vm_compute. reflexivity. Qed.
Example norm_ref_ex12 : norm_ref (Some "007.0 ") = "007". Proof. vm_compute. reflexivity. Qed.
Example norm_ref_ex13 : norm_ref (Some "　１２,０ ") = "12". Proof. vm_compute. reflexivity. Qed.
Example digits_only_ex : digits_only (Some "A1-٢b") = "1٢". Proof. vm_compute. reflexivity. Qed.
Example code_point_ex :
  Text.code_point <$> Text.chars "Ит 1٢" = [Some 1048; Some 1090; Some 32; Some 49; Some 1634]%N.
Proof. vm_compute. reflexivity. Qed.

(** ** Worked values of the number builtins *)

Example format_2f_ex1 : Py.format_2f 2.5 = "2.50". Proof. vm_compute. reflexivity. Qed.
Example format_2f_ex2 : Py.format_2f 0.125 = "0.12". Proof. vm_compute. reflexivity. Qed.
Example format_2f_ex3 : Py.format_2f 1234.5678 = "1234.57". Proof. vm_compute. reflexivity. Qed.
Example format_2f_ex4 : Py.format_2f (-0.001) = "-0.00". Proof. vm_compute. reflexivity. Qed.
Example format_2f_ex5 : Py.format_2f 2.675 = "2.67". Proof. vm_compute. reflexivity. Qed.
Example format_2f_ex6 : Py.format_2f 0.995 = "0.99". Proof. vm_compute. reflexivity. Qed.
Example format_2f_ex7 : Py.format_2f 1e22 = "10000000000000000000000.00". Proof. vm_compute. reflexivity. Qed.
Example int_of_float_ex : Py.int_of_float (-2.7) = Some (-2). Proof. vm_compute. reflexivity. Qed.
Example or_zero_ex : Py.or_zero (Some (-0)%float) = 0%float. Proof. reflexivity. Qed.

(** ** Text helpers *)

Module TextFacts.
Import Text.

Lemma append_cons b (s t : string) : (String b s ++ t)%string = String b (s ++ t)%string.
Proof. reflexivity. Qed.

Lemma append_empty (s : string) : (s ++ "")%string = s.
Proof. induction s as [| b s IH]; [reflexivity |]. rewrite append_cons, IH. reflexivity. Qed.

Lemma append_assoc (s t u : string) : ((s ++ t) ++ u)%string = (s ++ (t ++ u))%string.
Proof. induction s as [| b s IH]; [reflexivity |]. rewrite !append_cons, IH. reflexivity. Qed.

Lemma of_chars_cons c cs : of_chars (c :: cs) = (c ++ of_chars cs)%string.
Proof. reflexivity. Qed.

Lemma of_chars_app cs ds : of_chars (cs ++ ds) = (of_chars cs ++ of_chars ds)%string.
Proof.
  induction cs as [| c cs IH]; [reflexivity |].
  cbn [app]. rewrite !of_chars_cons, IH, append_assoc. reflexivity.
Qed.

(** *** Characters *)

Lemma chars_cons b s :
  chars (String b s) =
    match chars s with
    | c :: cs => if starts_inside s then String b c :: cs else String b "" :: c :: cs
    | [] => [String b ""]
    end.
Proof. reflexivity. Qed.

Lemma chars_head s : starts_inside (hd "" (chars s)) = starts_inside s.
Proof.
  destruct s as [| b s]; [reflexivity |]. rewrite chars_cons.
  destruct (chars s); [reflexivity |]. destruct (starts_inside s); reflexivity.
Qed.

Lemma chars_nil s : chars s = [] -> s = "".
Proof.
  destruct s as [| b s]; [reflexivity |]. rewrite chars_cons.
  destruct (chars s); [discriminate |]. destruct (starts_inside s); discriminate.
Qed.

Lemma of_chars_chars s : of_chars (chars s) = s.
Proof.
  induction s as [| b s IH]; [reflexivity |]. rewrite chars_cons.
  destruct (chars s) as [| c cs] eqn:E.
  - rewrite (chars_nil s E). reflexivity.
  - destruct (starts_inside s); rewrite ?of_chars_cons, ?append_cons in *;
      cbn [String.append]; rewrite <- IH; reflexivity.
Qed.

Lemma chars_segmented s : segmented (chars s).
Proof.
  induction s as [| b s [IH1 IH2]]; [split; constructor |]. rewrite chars_cons.
  pose proof (chars_head s) as Hh.
  destruct (chars s) as [| c cs]; [split; repeat constructor |].
  cbn [hd] in Hh. destruct (starts_inside s) eqn:Hs.
  - split; [| exact IH2]. inversion IH1 as [| ? ? Hc Hcs]; subst.
    constructor; [| exact Hcs]. destruct c as [| b' t]; [discriminate |].
    cbn in Hh, Hc |- *. rewrite Hh, Hc. reflexivity.
  - split; [constructor; [reflexivity | exact IH1] |].
    cbn [tail]. constructor; [exact Hh | exact IH2].
Qed.

Lemma chars_continued t rest : forall b,
  continues t = true -> starts_inside rest = false ->
  chars (String b (t ++ rest)) = String b t :: chars rest.
Proof.
  induction t as [| b' t IH]; intros b Ht Hr.
  - change (chars (String b rest) = String b "" :: chars rest). rewrite chars_cons, Hr.
    destruct (chars rest); reflexivity.
  - cbn [continues] in Ht. apply andb_true_iff in Ht as [Hb Ht].
    rewrite append_cons, chars_cons, (IH b' Ht Hr). cbn [starts_inside]. rewrite Hb.
    reflexivity.
Qed.

Lemma of_chars_fresh cs :
  Forall (fun c => is_char c = true) cs -> Forall (fun c => starts_inside c = false) cs ->
  starts_inside (of_chars cs) = false.
Proof.
  intros Hc Hf. destruct cs as [| c cs]; [reflexivity |].
  inversion Hc; inversion Hf; subst. destruct c; [discriminate |]. assumption.
Qed.

Lemma chars_of_chars cs : segmented cs -> chars (of_chars cs) = cs.
Proof.
  intros [Hc Hf]. induction cs as [| c cs IH]; [reflexivity |].
  inversion Hc as [| ? ? Hc1 Hcs]; subst. cbn [tail] in Hf.
  destruct c as [| b t]; [discriminate |]. rewrite of_chars_cons, append_cons.
  rewrite chars_continued; [| exact Hc1 | apply of_chars_fresh; assumption].
  f_equal. apply IH; [exact Hcs |]. destruct cs; [constructor |].
  cbn [tail]. inversion Hf; assumption.
Qed.

Lemma Forall_sublist {A} (P : A -> Prop) (l k : list A) :
  k `sublist_of` l -> Forall P l -> Forall P k.
Proof.
  rewrite !Forall_forall. intros Hs Hl x Hx. apply Hl. exact (elem_of_sublist _ _ _ Hx Hs).
Qed.

Lemma segmented_sublist cs ds : ds `sublist_of` cs -> segmented cs -> segmented ds.
Proof.
  intros Hs [Hc Hf]. split; [exact (Forall_sublist _ _ _ Hs Hc) |].
  inversion Hs as [| x l1 l2 H12 | x l1 l2 H12]; subst; cbn [tail] in *.
  - constructor.
  - exact (Forall_sublist _ _ _ H12 Hf).
  - apply Forall_tail. exact (Forall_sublist _ _ _ H12 Hf).
Qed.

(** *** Trimming *)

Lemma drop_spaces_split l :
  exists pre, l = pre ++ drop_spaces l /\ Forall (fun c => is_space c = true) pre.
Proof.
  induction l as [| c l (pre & E & Hp)]; [exists []; split; [reflexivity | constructor] |].
  cbn [drop_spaces]. destruct (is_space c) eqn:Hc.
  - exists (c :: pre). split; [cbn; rewrite <- E; reflexivity | constructor; assumption].
  - exists []. split; [reflexivity | constructor].
Qed.

Lemma drop_spaces_sublist l : drop_spaces l `sublist_of` l.
Proof.
  destruct (drop_spaces_split l) as (pre & E & _). rewrite E at 2.
  apply sublist_inserts_l. reflexivity.
Qed.

Lemma drop_spaces_clean c l : drop_spaces (c :: l) = c :: l <-> is_space c = false.
Proof.
  cbn [drop_spaces]. destruct (is_space c); split; try reflexivity; try discriminate.
  intros E. pose proof (sublist_length _ _ (drop_spaces_sublist l)) as Hl.
  rewrite E in Hl. cbn in Hl. lia.
Qed.

Lemma drop_spaces_idem l : drop_spaces (drop_spaces l) = drop_spaces l.
Proof.
  induction l as [| c l IH]; [reflexivity |]. cbn [drop_spaces].
  destruct (is_space c) eqn:Hc; [exact IH |]. cbn [drop_spaces]. rewrite Hc. reflexivity.
Qed.

(** A prefix of a list that starts with no blank starts with none. *)
Lemma drop_spaces_prefix l k : drop_spaces (l ++ k) = l ++ k -> drop_spaces l = l.
Proof.
  destruct l as [| c l]; [reflexivity |]. cbn [app]. rewrite !drop_spaces_clean. auto.
Qed.

Lemma trim_sublist l : trim l `sublist_of` l.
Proof.
  unfold trim. etransitivity; [| apply drop_spaces_sublist].
  destruct (drop_spaces_split (reverse (drop_spaces l))) as (pre & E & _).
  apply (f_equal reverse) in E. rewrite reverse_involutive, reverse_app in E.
  rewrite E at 2. apply sublist_inserts_r. reflexivity.
Qed.

Lemma trim_head l : drop_spaces (trim l) = trim l.
Proof.
  unfold trim.
  destruct (drop_spaces_split (reverse (drop_spaces l))) as (pre & E & _).
  apply (f_equal reverse) in E. rewrite reverse_involutive, reverse_app in E.
  apply (drop_spaces_prefix _ (reverse pre)). rewrite <- E. apply drop_spaces_idem.
Qed.

Lemma trim_last l : drop_spaces (reverse (trim l)) = reverse (trim l).
Proof. unfold trim. rewrite reverse_involutive. apply drop_spaces_idem. Qed.

Lemma trim_fixed l :
  drop_spaces l = l -> drop_spaces (reverse l) = reverse l -> trim l = l.
Proof. intros H1 H2. unfold trim. rewrite H1, H2. apply reverse_involutive. Qed.

Lemma trim_idem l : trim (trim l) = trim l.
Proof. apply trim_fixed; [apply trim_head | apply trim_last]. Qed.

Lemma chars_strip s : chars (strip s) = trim (chars s).
Proof.
  apply chars_of_chars. apply (segmented_sublist (chars s)); [apply trim_sublist |].
  apply chars_segmented.
Qed.

Lemma strip_idem s : strip (strip s) = strip s.
Proof. unfold strip at 1. rewrite chars_strip, trim_idem. reflexivity. Qed.

Lemma drop_spaces_fmap (f : string -> string) l :
  (forall c, is_space (f c) = is_space c) ->
  drop_spaces (f <$> l) = f <$> drop_spaces l.
Proof.
  intros Hf. induction l as [| c l IH]; [reflexivity |].
  cbn [fmap list_fmap drop_spaces]. rewrite Hf. destruct (is_space c); [exact IH | reflexivity].
Qed.

Lemma trim_fmap (f : string -> string) l :
  (forall c, is_space (f c) = is_space c) -> trim (f <$> l) = f <$> trim l.
Proof.
  intros Hf. unfold trim.
  rewrite (drop_spaces_fmap f _ Hf), <- fmap_reverse, (drop_spaces_fmap f _ Hf), fmap_reverse.
  reflexivity.
Qed.

(** *** Replacing an ASCII character by another *)

Section Replace.
Variables a b : ascii.
Hypothesis Ha : (N_of_ascii a < 128)%N.
Hypothesis Hb : (N_of_ascii b < 128)%N.
Hypothesis Hsa : space_code (N_of_ascii a) = false.
Hypothesis Hsb : space_code (N_of_ascii b) = false.

Lemma continuation_small c : (N_of_ascii c < 128)%N -> is_continuation c = false.
Proof. intros H. unfold is_continuation. cbn zeta. apply andb_false_iff. left. apply N.leb_gt, H. Qed.

Lemma swap_continuation c :
  is_continuation (if Ascii.eqb c a then b else c) = is_continuation c.
Proof.
  destruct (Ascii.eqb_spec c a) as [-> | _]; [| reflexivity].
  rewrite !continuation_small by assumption. reflexivity.
Qed.

Lemma swap_payload c : payload (if Ascii.eqb c a then b else c) = payload c.
Proof.
  unfold payload. rewrite swap_continuation.
  destruct (Ascii.eqb_spec c a) as [-> | _]; [| reflexivity].
  rewrite continuation_small by assumption. reflexivity.
Qed.

Lemma replace_payloads t : payloads (replace a b t) = payloads t.
Proof.
  induction t as [| c t IH]; [reflexivity |]. cbn [replace payloads].
  rewrite swap_payload, IH. reflexivity.
Qed.

Lemma replace_app s t : replace a b (s ++ t) = (replace a b s ++ replace a b t)%string.
Proof.
  induction s as [| c s IH]; [reflexivity |].
  rewrite append_cons. cbn [replace]. rewrite append_cons, IH. reflexivity.
Qed.

Lemma replace_of_chars cs : replace a b (of_chars cs) = of_chars (replace a b <$> cs).
Proof.
  induction cs as [| c cs IH]; [reflexivity |].
  cbn [fmap list_fmap]. rewrite !of_chars_cons, replace_app, IH. reflexivity.
Qed.

Lemma replace_starts s : starts_inside (replace a b s) = starts_inside s.
Proof. destruct s as [| c s]; [reflexivity |]. cbn. apply swap_continuation. Qed.

Lemma chars_replace s : chars (replace a b s) = replace a b <$> chars s.
Proof.
  induction s as [| c s IH]; [reflexivity |].
  cbn [replace]. rewrite !chars_cons, IH, replace_starts.
  destruct (chars s) as [| x xs]; [reflexivity |].
  cbn [fmap list_fmap]. destruct (starts_inside s); reflexivity.
Qed.

Lemma is_space_replaced c : is_space (replace a b c) = is_space c.
Proof.
  destruct c as [| c t]; [reflexivity |]. unfold is_space, code_point.
  cbn [replace]. rewrite replace_payloads.
  destruct (Ascii.eqb_spec c a) as [-> | _]; [| reflexivity].
  apply N.ltb_lt in Ha as Ha', Hb as Hb'.
  assert (forall lo n, (128 <= lo)%N -> (n < 128)%N -> (lo <=? n)%N = false) as Hlo
    by (intros lo n ? ?; apply N.leb_gt; lia).
  destruct (payloads t) as [[| x1 [| x2 [| x3 [| x4 xs]]]] |]; try reflexivity.
  - rewrite Ha', Hb', Hsa, Hsb. reflexivity.
  - rewrite !(Hlo 194%N) by (assumption || lia). reflexivity.
  - rewrite !(Hlo 224%N) by (assumption || lia). reflexivity.
  - rewrite !(Hlo 240%N) by (assumption || lia). reflexivity.
Qed.

Lemma strip_replace s : strip (replace a b s) = replace a b (strip s).
Proof.
  unfold strip. rewrite chars_replace, (trim_fmap _ _ is_space_replaced), replace_of_chars.
  reflexivity.
Qed.

Lemma replace_idem s : a <> b -> replace a b (replace a b s) = replace a b s.
Proof.
  intros Hab. induction s as [| c s IH]; [reflexivity |]. cbn. rewrite IH. f_equal.
  destruct (Ascii.eqb_spec c a) as [-> | Hc].
  - destruct (Ascii.eqb_spec b a); congruence.
  - destruct (Ascii.eqb_spec c a); congruence.
Qed.
End Replace.

(** The text [norm_ref] works on is a fixed point of its own clean-up. *)
Lemma clean_fixed t :
  let s := replace "," "." (strip t) in replace "," "." (strip s) = s.
Proof.
  cbn zeta. rewrite strip_replace by (vm_compute; reflexivity). rewrite strip_idem.
  apply replace_idem. discriminate.
Qed.

(** *** Digits *)

Lemma space_not_digit n : space_code n = true -> digit_of_code n = None.
Proof.
  unfold space_code. intros (x & Hx & E)%existsb_exists. apply N.eqb_eq in E as ->.
  assert (forallb (fun x => match digit_of_code x with None => true | Some _ => false end)
            space_codes = true) as Hall by (vm_compute; reflexivity).
  rewrite forallb_forall in Hall. specialize (Hall x Hx).
  destruct (digit_of_code x); [discriminate | reflexivity].
Qed.

Lemma digit_not_space c : is_digit c = true -> is_space c = false.
Proof.
  unfold is_digit, digit_value, is_space. destruct (code_point c) as [n |]; [| reflexivity].
  cbn. destruct (space_code n) eqn:E; [| reflexivity].
  rewrite (space_not_digit n E). discriminate.
Qed.

Lemma payloads_fixed a b t xs :
  (N_of_ascii a < 128)%N -> payloads t = Some xs -> replace a b t = t.
Proof.
  intros Ha. revert xs. induction t as [| c t IH]; intros xs; [reflexivity |].
  cbn [payloads replace]. unfold payload at 1.
  destruct (is_continuation c) eqn:Hc; [| discriminate]. cbn.
  destruct (payloads t) as [ys |]; [| discriminate]. intros _.
  rewrite (IH ys eq_refl). destruct (Ascii.eqb_spec c a) as [-> | _]; [| reflexivity].
  rewrite continuation_small in Hc by exact Ha. discriminate.
Qed.

(** A digit is none of the ASCII characters that are no digits. *)
Lemma digit_replace a b c :
  (N_of_ascii a < 128)%N -> digit_of_code (N_of_ascii a) = None ->
  is_digit c = true -> replace a b c = c.
Proof.
  intros Ha Hd. unfold is_digit, digit_value, code_point.
  destruct c as [| c0 t]; [reflexivity |]. cbn [replace].
  destruct (payloads t) as [xs |] eqn:Hp; [| discriminate].
  rewrite (payloads_fixed a b t xs Ha Hp).
  destruct (Ascii.eqb_spec c0 a) as [-> | _]; [| reflexivity].
  assert (forall lo, (128 <= lo)%N -> (lo <=? N_of_ascii a)%N = false) as Hlo
    by (intros lo ?; apply N.leb_gt; lia).
  destruct xs as [| x1 [| x2 [| x3 [| x4 xs]]]]; try discriminate.
  - destruct (N_of_ascii a <? 128)%N; [| discriminate]. cbn. rewrite Hd. discriminate.
  - rewrite (Hlo 194%N) by lia. discriminate.
  - rewrite (Hlo 224%N) by lia. discriminate.
  - rewrite (Hlo 240%N) by lia. discriminate.
Qed.

Lemma all_digits_span s : all_digits s = true -> span_digits s = (s, "").
Proof.
  unfold all_digits, span_digits. intros H.
  assert (span_chars is_digit (chars s) = (chars s, [])) as ->.
  { induction (chars s) as [| c cs IH]; [reflexivity |]. cbn in H |- *.
    apply andb_true_iff in H as [Hc Hs]. rewrite Hc, (IH Hs). reflexivity. }
  rewrite of_chars_chars. reflexivity.
Qed.

Lemma all_digits_strip s : all_digits s = true -> strip s = s.
Proof.
  unfold all_digits, strip. intros H. rewrite forallb_forall in H.
  rewrite trim_fixed; [apply of_chars_chars | |].
  - destruct (chars s) as [| c cs]; [reflexivity |]. apply drop_spaces_clean.
    apply digit_not_space, H. left. reflexivity.
  - destruct (reverse (chars s)) as [| c cs] eqn:E; [reflexivity |].
    apply drop_spaces_clean, digit_not_space, H.
    apply list_elem_of_In, elem_of_reverse. rewrite E. left.
Qed.

Lemma all_digits_replace a b s :
  (N_of_ascii a < 128)%N -> digit_of_code (N_of_ascii a) = None ->
  all_digits s = true -> replace a b s = s.
Proof.
  intros Ha Hd. unfold all_digits. intros H. rewrite forallb_forall in H.
  rewrite <- (of_chars_chars s) at 1. rewrite replace_of_chars.
  rewrite <- (of_chars_chars s) at 2. f_equal.
  rewrite <- (list_fmap_id (chars s)) at 2. apply list_fmap_ext.
  intros i c Hc. apply (digit_replace a b c Ha Hd), H, list_elem_of_In.
  exact (list_elem_of_lookup_2 _ _ _ Hc).
Qed.

Lemma all_digits_commas s : all_digits s = true -> replace "," "." s = s.
Proof. apply all_digits_replace; vm_compute; reflexivity. Qed.

Lemma span_chars_spec p cs d r :
  span_chars p cs = (d, r) -> cs = d ++ r /\ forallb p d = true.
Proof.
  revert d r. induction cs as [| c cs IH]; cbn; intros d r.
  - intros [= <- <-]. split; reflexivity.
  - destruct (p c) eqn:E.
    + destruct (span_chars p cs) as [d' r']. intros [= <- <-].
      destruct (IH d' r' eq_refl) as [-> Hd]. cbn. rewrite E. split; [reflexivity | exact Hd].
    + intros [= <- <-]. split; reflexivity.
Qed.

Lemma span_digits_all s d r : span_digits s = (d, r) -> all_digits d = true.
Proof.
  unfold span_digits, all_digits.
  destruct (span_chars is_digit (chars s)) as [ds rs] eqn:E. intros [= <- <-].
  destruct (span_chars_spec _ _ _ _ E) as [Hs Hd].
  rewrite chars_of_chars; [exact Hd |].
  apply (segmented_sublist (chars s)); [| apply chars_segmented].
  rewrite Hs. apply sublist_inserts_r. reflexivity.
Qed.

Lemma chars_fresh b s :
  starts_inside s = false -> chars (String b s) = String b "" :: chars s.
Proof. intros H. rewrite chars_cons, H. destruct (chars s); reflexivity. Qed.

Lemma plain_digit_byte b :
  let n := N_of_ascii b in
  ((48 <=? n) && (n <=? 57))%N = true ->
  is_continuation b = false /\
  digit_value (String b "") = Some (n - 48)%N /\
  ascii_of_N (48 + (n - 48)) = b.
Proof. destruct b as [[] [] [] [] [] [] [] []]; vm_compute; intros; repeat split; congruence. Qed.

Lemma plain_digits_chars s :
  plain_digits s = true ->
  starts_inside s = false /\ all_digits s = true /\ ascii_digits s = s.
Proof.
  unfold all_digits, ascii_digits.
  induction s as [| b s IH]; [repeat split |]. cbn [plain_digits].
  intros [Hb Hs]%andb_true_iff. destruct (IH Hs) as (Hf & Ha & Hd).
  destruct (plain_digit_byte b Hb) as (Hc & Hv & Hn).
  rewrite (chars_fresh b s Hf). cbn [starts_inside forallb fmap list_fmap].
  unfold is_digit at 1. rewrite Hv, Hn, of_chars_cons, Hd, Ha. repeat split. exact Hc.
Qed.

Lemma plain_digits_uint u : plain_digits (NilEmpty.string_of_uint u) = true.
Proof. induction u; cbn; auto. Qed.

Lemma plain_digits_str n : plain_digits (str_of_int n) = true.
Proof.
  unfold str_of_int, NilZero.string_of_uint.
  destruct (N.to_uint (Z.to_N n)) eqn:E; try (rewrite <- E; apply plain_digits_uint).
  reflexivity.
Qed.

Lemma all_digits_str n : all_digits (str_of_int n) = true.
Proof. apply plain_digits_chars, plain_digits_str. Qed.

Lemma str_nonempty n : is_empty (str_of_int n) = false.
Proof.
  unfold str_of_int, NilZero.string_of_uint.
  destruct (N.to_uint (Z.to_N n)); reflexivity.
Qed.

(** [int(str(n)) = n] *)
Lemma int_of_str n : 0 <= n -> int_of_digits (str_of_int n) = n.
Proof.
  intros Hn. unfold int_of_digits.
  destruct (plain_digits_chars _ (plain_digits_str n)) as (_ & _ & ->).
  unfold str_of_int, NilZero.string_of_uint.
  destruct (N.to_uint (Z.to_N n)) eqn:E.
  1: { cbn. rewrite <- (Z2N.id n Hn) at 1.
       rewrite <- (DecimalN.Unsigned.of_to (Z.to_N n)), E. reflexivity. }
  all: rewrite <- E, NilEmpty.usu, DecimalN.Unsigned.of_to; apply Z2N.id, Hn.
Qed.

End TextFacts.

(** ** Rounding to binary64 *)

Module Float64Facts.
Import Float64.

Lemma round_half_even_range n d :
  0 <= n -> 0 < d -> n / d <= round_half_even n d <= n / d + 1.
Proof.
  intros Hn Hd. unfold round_half_even.
  repeat match goal with |- context [if ?b then _ else _] => destruct b end; lia.
Qed.

Lemma round_half_even_exact n d :
  0 < d -> n mod d = 0 -> round_half_even n d = n / d.
Proof.
  intros Hd Hm. unfold round_half_even. rewrite Hm.
  destruct (2 * 0 <? d) eqn:E; [reflexivity | apply Z.ltb_ge in E; lia].
Qed.

Lemma round_half_even_below n d b :
  0 <= n -> 0 < d -> n < d * b -> 0 <= round_half_even n d <= b.
Proof.
  intros Hn Hd Hb.
  pose proof (round_half_even_range n d Hn Hd) as [Hlo Hhi].
  pose proof (Z.div_lt_upper_bound n d b Hd Hb).
  pose proof (Z.div_pos n d Hn Hd). lia.
Qed.

Lemma pow2_pos k : 0 < 2 ^ k \/ (k < 0 /\ 2 ^ k = 0).
Proof.
  destruct (Z_lt_le_dec k 0) as [H | H].
  - right. split; [exact H | apply Z.pow_neg_r, H].
  - left. apply Z.pow_pos_nonneg; lia.
Qed.

Lemma pow2_split a b : 0 <= a -> 0 <= b -> 2 ^ (a + b) = 2 ^ a * 2 ^ b.
Proof. intros. apply Z.pow_add_r; assumption. Qed.

Lemma ratio_lt_pow2_mono p q k k' :
  0 < p -> 0 < q -> k <= k' ->
  ratio_lt_pow2 p q k = true -> ratio_lt_pow2 p q k' = true.
Proof.
  intros Hp Hq Hk. unfold ratio_lt_pow2.
  destruct (Z.leb_spec 0 k) as [K | K], (Z.leb_spec 0 k') as [K' | K'];
    rewrite !Z.ltb_lt; intros H; try lia.
  - pose proof (Z.pow_le_mono_r 2 k k' ltac:(lia) Hk). nia.
  - assert (1 <= 2 ^ (- k)) by (apply (Z.pow_le_mono_r 2 0 (- k)); lia).
    assert (1 <= 2 ^ k') by (apply (Z.pow_le_mono_r 2 0 k'); lia).
    nia.
  - pose proof (Z.pow_le_mono_r 2 (- k') (- k) ltac:(lia) ltac:(lia)).
    assert (0 < 2 ^ (- k')) by (apply Z.pow_pos_nonneg; lia). nia.
Qed.

Lemma ilog2_ratio_upper p q :
  0 < p -> 0 < q -> ratio_lt_pow2 p q (ilog2_ratio p q + 1) = true.
Proof.
  intros Hp Hq. unfold ilog2_ratio.
  destruct (ratio_lt_pow2 p q (Z.log2 p - Z.log2 q)) eqn:E.
  - replace (Z.log2 p - Z.log2 q - 1 + 1) with (Z.log2 p - Z.log2 q) by lia. exact E.
  - clear E. pose proof (Z.log2_spec p Hp) as [_ Hpu].
    pose proof (Z.log2_spec q Hq) as [Hql _].
    pose proof (Z.log2_nonneg p) as Lp. pose proof (Z.log2_nonneg q) as Lq.
    unfold Z.succ in Hpu. unfold ratio_lt_pow2.
    destruct (Z.leb_spec 0 (Z.log2 p - Z.log2 q + 1)) as [K | K]; apply Z.ltb_lt.
    + assert (2 ^ (Z.log2 p + 1) = 2 ^ Z.log2 q * 2 ^ (Z.log2 p - Z.log2 q + 1)) as E.
      { rewrite <- pow2_split by lia. f_equal. lia. }
      assert (0 < 2 ^ (Z.log2 p - Z.log2 q + 1)) by (apply Z.pow_pos_nonneg; lia).
      nia.
    + assert (2 ^ Z.log2 q = 2 ^ (Z.log2 p + 1) * 2 ^ (- (Z.log2 p - Z.log2 q + 1))) as E.
      { rewrite <- pow2_split by lia. f_equal. lia. }
      assert (0 < 2 ^ (- (Z.log2 p - Z.log2 q + 1))) by (apply Z.pow_pos_nonneg; lia).
      nia.
Qed.

(** The mantissa of a rounded value has at most 53 bits (2^53 itself when
    rounding carries). *)
Lemma of_ratio_fin p q m e :
  0 < p -> 0 < q -> of_ratio p q = Fin m e ->
  0 <= m <= 2 ^ 53 /\ -1074 <= e /\ m * 2 ^ e < 2 ^ 1024.
Proof.
  intros Hp Hq. unfold of_ratio.
  destruct (Z.eqb_spec p 0) as [? | _]; [lia |].
  set (e0 := Z.max (ilog2_ratio p q - 52) (-1074)).
  destruct (Z.leb_spec (2 ^ 1024) ((if 0 <=? e0 then round_half_even p (q * 2 ^ e0)
    else round_half_even (p * 2 ^ (- e0)) q) * 2 ^ e0)) as [_ | Hov]; [discriminate |].
  intros [= <- <-]. split; [| split; [unfold e0; lia | exact Hov]].
  assert (ratio_lt_pow2 p q (e0 + 53) = true) as Hr.
  { apply (ratio_lt_pow2_mono p q (ilog2_ratio p q + 1)); try assumption.
    - unfold e0. lia.
    - apply ilog2_ratio_upper; assumption. }
  unfold ratio_lt_pow2 in Hr.
  destruct (Z.leb_spec 0 e0) as [E | E].
  - destruct (Z.leb_spec 0 (e0 + 53)); [| lia]. apply Z.ltb_lt in Hr.
    assert (0 < 2 ^ e0) by (apply Z.pow_pos_nonneg; lia).
    apply round_half_even_below; try nia.
    rewrite pow2_split in Hr by lia. nia.
  - assert (0 < 2 ^ (- e0)) by (apply Z.pow_pos_nonneg; lia).
    apply round_half_even_below; try nia.
    destruct (Z.leb_spec 0 (e0 + 53)) as [E' | E']; apply Z.ltb_lt in Hr.
    + assert (2 ^ 53 = 2 ^ (e0 + 53) * 2 ^ (- e0)) as E53.
      { rewrite <- pow2_split by lia. f_equal. lia. }
      nia.
    + assert (2 ^ (- e0) = 2 ^ (- (e0 + 53)) * 2 ^ 53) as E53.
      { rewrite <- pow2_split by lia. f_equal. lia. }
      nia.
Qed.

(** An integer-valued result is a representable integer ... *)
Lemma of_ratio_integer_representable p q :
  0 <= p -> 0 < q -> is_integer (of_ratio p q) = true ->
  representable (to_int (of_ratio p q)).
Proof.
  intros Hp Hq. destruct (Z.eq_dec p 0) as [-> | Hp0].
  { intros _. vm_compute. split; [split; [discriminate | reflexivity] | exists 0; reflexivity]. }
  destruct (of_ratio p q) as [| m e] eqn:E; [discriminate |].
  apply of_ratio_fin in E as (Hm & He & Hov); [| lia | lia].
  cbn [is_integer to_int]. destruct (Z.leb_spec 0 e) as [E0 | E0].
  - intros _. assert (0 < 2 ^ e) as P by (apply Z.pow_pos_nonneg; lia).
    split; [nia |].
    destruct (Z.eq_dec m 0) as [-> | Hm0]; [exists 0; lia |].
    destruct (Z.eq_dec m (2 ^ 53)) as [-> | Hm53].
    + rewrite <- pow2_split by lia. rewrite Z.log2_pow2 by lia.
      rewrite Z.max_r by lia.
      exists (2 ^ 52). rewrite <- pow2_split by lia. f_equal. lia.
    + rewrite Z.log2_mul_pow2 by lia.
      assert (Z.log2 m < 53) by (apply Z.log2_lt_pow2; lia).
      pose proof (Z.log2_nonneg m).
      destruct (Z.max_spec 0 (e + Z.log2 m - 52)) as [[? ->] | [? ->]].
      * exists (m * 2 ^ (52 - Z.log2 m)).
        rewrite <- Z.mul_assoc, <- pow2_split by lia. do 2 f_equal. lia.
      * exists (m * 2 ^ e). lia.
  - intros Hi. apply Z.eqb_eq in Hi.
    assert (0 < 2 ^ (- e)) as P by (apply Z.pow_pos_nonneg; lia).
    assert (2 <= 2 ^ (- e)) as P2 by (apply (Z.pow_le_mono_r 2 1 (- e)); lia).
    pose proof (Z.div_mod m (2 ^ (- e)) ltac:(lia)) as Hdm. rewrite Hi in Hdm.
    assert (0 <= m / 2 ^ (- e)) by (apply Z.div_pos; lia).
    assert (m / 2 ^ (- e) <= 2 ^ 52) as Hn by nia.
    split; [split; [assumption | lia] |].
    destruct (Z.eq_dec (m / 2 ^ (- e)) 0) as [-> | Hn0]; [exists 0; reflexivity |].
    assert (Z.log2 (m / 2 ^ (- e)) <= 52) as L.
    { rewrite <- (Z.log2_pow2 52) by lia. apply Z.log2_le_mono. exact Hn. }
    rewrite Z.max_l by lia. exists (m / 2 ^ (- e)). lia.
Qed.

(** ... and a representable integer is its own rounding. *)
Lemma of_ratio_representable n :
  representable n ->
  is_integer (of_ratio n 1) = true /\ to_int (of_ratio n 1) = n.
Proof.
  intros [[Hn Hov] Hdiv]. destruct (Z.eq_dec n 0) as [-> | Hn0].
  { split; reflexivity. }
  unfold of_ratio. destruct (Z.eqb_spec n 0) as [? | _]; [contradiction |].
  assert (ilog2_ratio n 1 = Z.log2 n) as ->.
  { unfold ilog2_ratio. change (Z.log2 1) with 0. rewrite Z.sub_0_r.
    unfold ratio_lt_pow2. pose proof (Z.log2_nonneg n).
    destruct (Z.leb_spec 0 (Z.log2 n)); [| lia].
    pose proof (Z.log2_spec n ltac:(lia)) as [Hl _].
    destruct (Z.ltb_spec n (1 * 2 ^ Z.log2 n)); [lia | reflexivity]. }
  pose proof (Z.log2_nonneg n) as L.
  rewrite (Z.max_l (Z.log2 n - 52)) by lia.
  destruct (Z.leb_spec 0 (Z.log2 n - 52)) as [E | E].
  - rewrite Z.max_r in Hdiv by lia.
    assert (0 < 2 ^ (Z.log2 n - 52)) as P by (apply Z.pow_pos_nonneg; lia).
    rewrite Z.mul_1_l.
    rewrite round_half_even_exact; [| exact P | apply Z.mod_divide; [lia | exact Hdiv]].
    destruct Hdiv as [k Hk].
    assert (n / 2 ^ (Z.log2 n - 52) * 2 ^ (Z.log2 n - 52) = n) as Hex.
    { rewrite Hk at 1. rewrite Z.div_mul by lia. lia. }
    rewrite Hex. destruct (Z.leb_spec (2 ^ 1024) n); [lia |].
    cbn [is_integer to_int]. destruct (Z.leb_spec 0 (Z.log2 n - 52)); [| lia].
    split; [reflexivity | exact Hex].
  - assert (0 < 2 ^ (- (Z.log2 n - 52))) as P by (apply Z.pow_pos_nonneg; lia).
    rewrite round_half_even_exact by (try apply Z.mod_1_r; lia).
    rewrite Z.div_1_r. rewrite (Z.pow_neg_r 2 (Z.log2 n - 52)) by lia.
    rewrite Z.mul_0_r. change (2 ^ 1024 <=? 0) with false.
    cbn [is_integer to_int]. destruct (Z.leb_spec 0 (Z.log2 n - 52)); [lia |].
    rewrite Z.mod_mul by lia. rewrite Z.div_mul by lia. split; reflexivity.
Qed.

Lemma representable_small n : 0 <= n < 2 ^ 53 -> representable n.
Proof.
  intros [Hn Hb]. split; [split; [exact Hn |] |].
  - eapply Z.lt_trans; [exact Hb | reflexivity].
  - destruct (Z.eq_dec n 0) as [-> | Hn0]; [exists 0; reflexivity |].
    assert (Z.log2 n < 53) by (apply Z.log2_lt_pow2; lia).
    rewrite Z.max_l by lia. exists n. lia.
Qed.

Lemma ilog2_ratio_int n : 0 < n -> ilog2_ratio n 1 = Z.log2 n.
Proof.
  intros Hn. unfold ilog2_ratio. change (Z.log2 1) with 0. rewrite Z.sub_0_r.
  unfold ratio_lt_pow2. pose proof (Z.log2_nonneg n).
  destruct (Z.leb_spec 0 (Z.log2 n)); [| lia].
  pose proof (Z.log2_spec n Hn) as [Hl _].
  destruct (Z.ltb_spec n (1 * 2 ^ Z.log2 n)); [lia | reflexivity].
Qed.

(** [float] of an integer text is an integer unless it overflows. *)
Lemma of_ratio_int_not_integer n :
  0 <= n -> is_integer (of_ratio n 1) = false -> of_ratio n 1 = Inf.
Proof.
  intros Hn. unfold of_ratio. destruct (Z.eqb_spec n 0) as [-> | Hn0]; [discriminate |].
  rewrite ilog2_ratio_int by lia. pose proof (Z.log2_nonneg n) as L.
  rewrite (Z.max_l (Z.log2 n - 52)) by lia.
  match goal with |- context [if ?b then Inf else _] => destruct b end; [reflexivity |].
  cbn [is_integer]. destruct (Z.leb_spec 0 (Z.log2 n - 52)) as [E | E]; [discriminate |].
  assert (0 < 2 ^ (- (Z.log2 n - 52))) as P by (apply Z.pow_pos_nonneg; lia).
  rewrite round_half_even_exact by (try apply Z.mod_1_r; lia).
  rewrite Z.div_1_r, Z.mod_mul by lia. discriminate.
Qed.

End Float64Facts.

(** ** [norm_ref] *)

Section NormRef.
Import Text TextFacts Float64 Float64Facts.

Lemma int_of_digits_nonneg d : 0 <= int_of_digits d.
Proof. unfold int_of_digits. destruct (NilEmpty.uint_of_string _); lia. Qed.

Lemma of_decimal_int d : of_decimal d "" = of_ratio (int_of_digits d) 1.
Proof.
  unfold of_decimal. cbn [chars length Z.of_nat]. change (10 ^ 0) with 1.
  change (int_of_digits "") with 0. f_equal. lia.
Qed.

(** On a non-empty text of digits only the float branch is live. *)
Lemma norm_ref_digits g :
  all_digits g = true -> is_empty g = false ->
  norm_ref (Some g) =
    if is_integer (of_decimal g "") then str_of_int (to_int (of_decimal g "")) else g.
Proof.
  intros Hd Hne. unfold norm_ref.
  rewrite (all_digits_strip g Hd), (all_digits_commas g Hd).
  unfold match_int_dot_zero, match_decimal. rewrite (all_digits_span g Hd), Hne.
  reflexivity.
Qed.

Lemma norm_ref_canonical n :
  representable n -> norm_ref (Some (str_of_int n)) = str_of_int n.
Proof.
  intros Hr. rewrite norm_ref_digits by (apply all_digits_str || apply str_nonempty).
  rewrite of_decimal_int, int_of_str by apply Hr.
  destruct (of_ratio_representable n Hr) as [-> ->]. reflexivity.
Qed.

Lemma norm_ref_stable g :
  all_digits g = true -> is_empty g = false ->
  norm_ref (Some g) = g <-> stable_digits g.
Proof.
  intros Hd Hne. rewrite (norm_ref_digits g Hd Hne). unfold stable_digits.
  rewrite of_decimal_int. pose proof (int_of_digits_nonneg g) as Hn.
  destruct (is_integer (of_ratio (int_of_digits g) 1)) eqn:E; split.
  - intros Hg. left. exists (to_int (of_ratio (int_of_digits g) 1)). split.
    + apply of_ratio_integer_representable; [exact Hn | lia | exact E].
    + symmetry. exact Hg.
  - intros [(n & Hr & ->) | Hi].
    + rewrite int_of_str by apply Hr.
      destruct (of_ratio_representable n Hr) as [_ ->]. reflexivity.
    + rewrite Hi in E. discriminate.
  - intros _. right. apply of_ratio_int_not_integer; assumption.
  - reflexivity.
Qed.

Lemma match_int_dot_zero_digits s g :
  match_int_dot_zero s = Some g -> all_digits g = true /\ is_empty g = false.
Proof.
  unfold match_int_dot_zero. destruct (span_digits s) as [d r] eqn:E.
  destruct r as [| c1 [| c2 r']]; try discriminate.
  destruct (negb (is_empty d) && Ascii.eqb c1 "." && Ascii.eqb c2 "0" && at_end r') eqn:C;
    [| discriminate].
  intros [= <-]. split.
  - exact (span_digits_all s d _ E).
  - destruct d; [discriminate | reflexivity].
Qed.

Lemma pow10_pos k : 0 < 10 ^ Z.of_nat k.
Proof. apply Z.pow_pos_nonneg; lia. Qed.

(** C9 (as amended). [norm_ref(None)] is the empty text, and normalising a
    second time changes nothing exactly for the inputs whose trimmed text,
    commas turned to points, is not of the form digits-point-zero, or is of
    that form with digits that are stable: already the decimal text of an
    integer binary64 holds exactly, or too long for [float]. *)
Theorem norm_ref_idempotent_iff (x : option string) :
  norm_ref None = "" /\
  (norm_ref (Some (norm_ref x)) = norm_ref x <->
   forall g,
     match_int_dot_zero (replace "," "." (strip (default "" x))) = Some g ->
     stable_digits g).
Proof.
  split; [reflexivity |].
  destruct x as [t |]; [| split; [intros _ g; discriminate | reflexivity]].
  change (default "" (Some t)) with t. pose proof (clean_fixed t) as Hfix. cbn zeta in Hfix.
  unfold norm_ref at 2 3. set (s := replace "," "." (strip t)) in *.
  destruct (match_int_dot_zero s) as [g |] eqn:M.
  - destruct (match_int_dot_zero_digits s g M) as [Hd Hne].
    rewrite (norm_ref_stable g Hd Hne). split.
    + intros Hs g' E. assert (g' = g) as -> by congruence. exact Hs.
    + intros H. apply H. first [exact M | reflexivity].
  - split; [intros _ g E; congruence | intros _].
    assert (norm_ref (Some s) =
            match match_decimal s with
            | Some (d, fr) =>
                if is_integer (of_decimal d fr)
                then str_of_int (to_int (of_decimal d fr)) else s
            | None => s
            end) as Hs.
    { unfold norm_ref. rewrite Hfix, M. reflexivity. }
    destruct (match_decimal s) as [[d fr] |] eqn:D; [| exact Hs].
    destruct (is_integer (of_decimal d fr)) eqn:I; [| exact Hs].
    apply norm_ref_canonical. unfold of_decimal in *.
    apply of_ratio_integer_representable; [| apply pow10_pos | exact I].
    pose proof (int_of_digits_nonneg d). pose proof (int_of_digits_nonneg fr).
    pose proof (pow10_pos (length (chars fr))). nia.
Qed.

(** C9 (as stated) fails: "007.0" normalises to "007", which normalises
    to "7". *)
Lemma norm_ref_not_idempotent :
  norm_ref (Some "007.0") = "007" /\
  norm_ref (Some (norm_ref (Some "007.0"))) = "7" /\
  norm_ref (Some (norm_ref (Some "007.0"))) <> norm_ref (Some "007.0").
Proof. vm_compute. repeat split; discriminate. Qed.

End NormRef.

(** ** mag_panel.py: the caches *)

Section Caches.
Context `{Python} `{Postgres}.

Lemma is_empty_eq s : Text.is_empty s = true <-> s = "".
Proof. destruct s; cbn; split; congruence. Qed.

(** A turn of the loop adds the row's label exactly when the row
    qualifies and the label is new. *)
Lemma options_step_spec mode side (m : gmap string string) r :
  options_step (str_lower (Text.strip mode)) side m r =
    if option_qualifies mode side r && negb (bool_decide (is_Some (m !! DiscSh r)))
    then <[DiscSh r := PN r]> m else m.
Proof.
  unfold options_step, option_qualifies, side_mismatch.
  destruct (String.eqb _ (str_lower (Text.strip mode))); cbn [negb andb]; [| reflexivity].
  destruct side as [s |]; cbn.
  - destruct (Text.is_empty s), (Text.is_empty (SIDE r)),
      (String.eqb (str_lower (Text.strip (SIDE r))) (str_lower (Text.strip s)));
      cbn; rewrite ?andb_true_r, ?andb_false_r; reflexivity.
  - rewrite ?andb_true_r. reflexivity.
Qed.

Lemma options_fold_lookup mode side rows (m : gmap string string) label :
  foldl (options_step (str_lower (Text.strip mode)) side) m rows !! label =
    match m !! label with
    | Some pn => Some pn
    | None =>
        PN <$> List.find (fun r => option_qualifies mode side r
                                   && String.eqb (DiscSh r) label) rows
    end.
Proof.
  revert m. induction rows as [| r rows IH]; intros m; cbn [foldl List.find].
  - destruct (m !! label); reflexivity.
  - rewrite IH, options_step_spec.
    destruct (option_qualifies mode side r) eqn:Q; cbn [andb].
    + destruct (String.eqb_spec (DiscSh r) label) as [-> | Hne].
      * destruct (m !! label) as [pn |] eqn:M.
        -- rewrite bool_decide_eq_true_2 by eauto. cbn. rewrite M. reflexivity.
        -- rewrite bool_decide_eq_false_2 by (intros [? ?]; congruence). cbn.
           rewrite lookup_insert_eq. reflexivity.
      * destruct (bool_decide (is_Some (m !! DiscSh r))); cbn;
          rewrite ?lookup_insert_ne by exact Hne; reflexivity.
    + reflexivity.
Qed.

(** C6. The map cached for (table, mode, side) sends a label to the part
    number of the first cached row of the table that qualifies and bears
    the label, and to nothing when no row does. *)
Theorem options_cache_first_match (p : Panel) (tbl mode : string)
    (side : option string) (label : string) :
  (m ← options_cache (_build_options_cache tbl mode side p) !! (tbl, mode, side);
   m !! label)
  = PN <$> List.find (fun r => option_qualifies mode side r
                               && String.eqb (DiscSh r) label)
                     (default [] (table_cache p !! tbl)).
Proof.
  unfold _build_options_cache. cbn [options_cache set_caches].
  rewrite lookup_insert_eq. cbn. unfold options_mapping.
  rewrite options_fold_lookup, lookup_empty. reflexivity.
Qed.

(** *** The reference lookup *)

Lemma fetchone_some cond rows r :
  fetchone cond rows = Ret (Some r) <->
  exists before after,
    rows = before ++ r :: after /\ cond r = Ret true /\
    Forall (fun x => cond x = Ret false) before.
Proof.
  induction rows as [| x rows IH]; cbn [fetchone].
  - split; [discriminate |]. intros (b & a & E & _). destruct b; discriminate.
  - destruct (cond x) as [[|] | e] eqn:C; cbn.
    + split.
      * intros [= <-]. exists [], rows. repeat split; [exact C | constructor].
      * intros ([| y b] & a & E & Hr & Hb).
        -- injection E as <- _. reflexivity.
        -- injection E as <- _. apply Forall_cons in Hb as [Hy _]. congruence.
    + rewrite IH. split.
      * intros (b & a & -> & Hr & Hb). exists (x :: b), a.
        repeat split; [exact Hr | constructor; assumption].
      * intros ([| y b] & a & E & Hr & Hb).
        -- injection E as <- _. congruence.
        -- injection E as <- ->. apply Forall_cons in Hb as [_ Hb]. eauto.
    + split; [discriminate |].
      intros ([| y b] & a & E & Hr & Hb).
      * injection E as <- _. congruence.
      * injection E as <- _. apply Forall_cons in Hb as [Hy _]. congruence.
Qed.

(** The query selects one record at most. *)
Lemma picked_unique pn p r r' : picked pn p r -> picked pn p r' -> r = r'.
Proof.
  intros (db & He & _ & Hq) (db' & He' & _ & Hq').
  assert (db' = db) as -> by congruence.
  unfold query_selects in Hq, Hq'. cbn zeta in Hq, Hq'.
  apply fetchone_some in Hq, Hq'. congruence.
Qed.

(** What [_fetch_tin_by_pn] gives: the data of the record the query
    selects, and nothing when it selects none or cannot run. *)
Lemma fetch_tin_spec pn p :
  Text.is_empty pn = false ->
  (exists r, picked pn p r /\ _fetch_tin_by_pn pn p = hit_of r) \/
  ((forall r, ~ picked pn p r) /\ _fetch_tin_by_pn pn p = no_hit).
Proof.
  intros Hpn. unfold _fetch_tin_by_pn.
  destruct (engine p) as [db |] eqn:He;
    [| right; split; [intros r (db & E & _); congruence | reflexivity]].
  rewrite Hpn. cbn [orb].
  destruct (truthy_str (tin_ref_col p)) eqn:Hc; cbn [negb];
    [| right; split; [intros r (db' & _ & E & _); congruence | reflexivity]].
  set (cond := where_matches _ _ _).
  assert (forall r, picked pn p r -> fetchone cond (db_tin db) = Ret (Some r)) as Hsel.
  { intros r (db' & E & _ & Hq). assert (db' = db) as -> by congruence.
    apply fetchone_some, Hq. }
  destruct (fetchone cond (db_tin db)) as [[r |] | e] eqn:F.
  - left. exists r. split; [| reflexivity].
    exists db. split; [exact He | split; [exact Hc | apply fetchone_some, F]].
  - right. split; [| reflexivity]. intros r Hr. specialize (Hsel r Hr). discriminate.
  - right. split; [| reflexivity]. intros r Hr. specialize (Hsel r Hr). discriminate.
Qed.

Lemma fold_insert_lookup (v : tin_hit) (ks : list string)
    (idx : gmap string tin_hit) (k : string) :
  foldl (fun m k' => <[k' := v]> m) idx ks !! k =
  if decide (k ∈ ks) then Some v else idx !! k.
Proof.
  revert idx. induction ks as [| k' ks IH]; intros idx; cbn [foldl].
  - case_decide as Hk; [inversion Hk | reflexivity].
  - rewrite IH. case_decide as Hk; case_decide as Hk'; try reflexivity.
    + exfalso. apply Hk'. right. exact Hk.
    + apply elem_of_cons in Hk' as [-> | Hk']; [| contradiction].
      apply lookup_insert_eq.
    + apply lookup_insert_ne. intros ->. apply Hk'. left.
Qed.

Lemma index_step_lookup idx r k :
  index_step idx r !! k = Some (hit_of r) /\ keyed k r \/
  index_step idx r !! k = idx !! k /\ ~ keyed k r.
Proof.
  unfold index_step, keyed. destruct (tin_ref r) as [ref |].
  - rewrite fold_insert_lookup. case_decide as Hk.
    + left. split; [reflexivity |]. exists ref. split; [reflexivity | exact Hk].
    + right. split; [reflexivity |]. intros (ref' & Href & Hk').
      injection Href as <-. contradiction.
  - right. split; [reflexivity |]. intros (ref & Href & _). discriminate.
Qed.

(** The index holds, under a key, a record that has the key; it holds
    something as soon as a record has the key. *)
Lemma index_fold_lookup rows idx k :
  match foldl index_step idx rows !! k with
  | Some v => idx !! k = Some v \/ exists r, r ∈ rows /\ keyed k r /\ v = hit_of r
  | None => idx !! k = None /\ forall r, r ∈ rows -> ~ keyed k r
  end.
Proof.
  revert idx. induction rows as [| r rows IH]; intros idx; cbn [foldl].
  - destruct (idx !! k); [left; reflexivity |]. split; [reflexivity |].
    intros r Hr. inversion Hr.
  - specialize (IH (index_step idx r)).
    destruct (foldl index_step (index_step idx r) rows !! k) as [v |].
    + destruct IH as [IH | (r' & Hr' & Hk & ->)].
      * destruct (index_step_lookup idx r k) as [[E Hk] | [E Hk]].
        -- right. exists r. split; [left |]. split; [exact Hk | congruence].
        -- left. congruence.
      * right. exists r'. split; [right; exact Hr' | split; [exact Hk | reflexivity]].
    + destruct IH as [IH Hn].
      destruct (index_step_lookup idx r k) as [[E Hk] | [E Hk]]; [congruence |].
      split; [congruence |]. intros r' [-> | Hr']%elem_of_cons; [exact Hk | apply Hn, Hr'].
Qed.

Lemma index_lookup rows k :
  match build_tin_index rows !! k with
  | Some v => exists r, r ∈ rows /\ keyed k r /\ v = hit_of r
  | None => forall r, r ∈ rows -> ~ keyed k r
  end.
Proof.
  unfold build_tin_index. pose proof (index_fold_lookup rows ∅ k) as Hl.
  destruct (foldl index_step ∅ rows !! k) as [v |].
  - destruct Hl as [Hl | Hl]; [rewrite lookup_empty in Hl; discriminate | exact Hl].
  - apply Hl.
Qed.

(** What the index gives for [pn]: the data of a record it holds under
    one of the three forms of [pn], when there is such a record. *)
Lemma index_answer pn p rows :
  tin_index p = build_tin_index rows ->
  match or_else (tin_index p !! pn)
          (or_else (tin_index p !! norm_ref (Some pn))
                   (tin_index p !! digits_only (Some pn))) with
  | Some h => exists r, r ∈ rows /\ index_holds pn r /\ h = hit_of r
  | None => forall r, r ∈ rows -> ~ index_holds pn r
  end.
Proof.
  intros Hi.
  assert (forall k, k ∈ [pn; norm_ref (Some pn); digits_only (Some pn)] ->
            match tin_index p !! k with
            | Some v => exists r, r ∈ rows /\ index_holds pn r /\ v = hit_of r
            | None => forall r, r ∈ rows -> ~ keyed k r
            end) as Hidx.
  { intros k Hk. rewrite Hi. pose proof (index_lookup rows k) as Hl.
    destruct (build_tin_index rows !! k) as [v |]; [| exact Hl].
    destruct Hl as (r & Hr & (ref & Href & Hkeys) & ->). exists r.
    split; [exact Hr | split; [| reflexivity]]. exists ref, k. auto. }
  pose proof (Hidx pn ltac:(set_solver)) as H1.
  pose proof (Hidx (norm_ref (Some pn)) ltac:(set_solver)) as H2.
  pose proof (Hidx (digits_only (Some pn)) ltac:(set_solver)) as H3.
  unfold or_else.
  destruct (tin_index p !! pn) as [v1 |]; [exact H1 |].
  destruct (tin_index p !! norm_ref (Some pn)) as [v2 |]; [exact H2 |].
  destruct (tin_index p !! digits_only (Some pn)) as [v3 |]; [exact H3 |].
  intros r Hr (ref & k & Href & Hk & Hkeys).
  assert (keyed k r) as Hkey by (exists ref; auto).
  apply elem_of_cons in Hk as [-> | Hk];
    [| apply elem_of_cons in Hk as [-> | Hk];
       [| apply list_elem_of_singleton in Hk as ->]].
  - exact (H1 r Hr Hkey).
  - exact (H2 r Hr Hkey).
  - exact (H3 r Hr Hkey).
Qed.

(** C3 (as amended). On a panel whose index was loaded from the rows
    [rows] of the reference table, the lookup of a part number [pn]
    returns the (description, pack size, list price, trimm price) of a
    record that answers [pn] as soon as there is one: the record the
    reference query selects, or a record the index holds under [pn],
    [norm_ref(pn)] or [digits_only(pn)]. It is the selected record
    whenever that one has a description. When no record answers [pn] the
    lookup returns the empty description and [None] for the pack size and
    both prices. *)
Theorem reference_lookup_spec (pn : string) (p : Panel) (rows : list tin_record) :
  tin_index p = build_tin_index rows -> Text.is_empty pn = false ->
  (forall r, picked pn p r -> Text.is_empty (default "" (tin_desc r)) = false ->
     reference_lookup pn p = hit_of r) /\
  ((exists r, lookup_match pn p rows r) ->
   exists r, lookup_match pn p rows r /\ reference_lookup pn p = hit_of r) /\
  ((forall r, ~ lookup_match pn p rows r) -> reference_lookup pn p = no_hit).
Proof.
  intros Hi Hpn. pose proof (index_answer pn p rows Hi) as Hidx.
  unfold reference_lookup, lookup_match.
  destruct (fetch_tin_spec pn p Hpn) as [(r0 & Hs & ->) | (Hns & ->)].
  - split; [| split].
    + intros r Hr Hd. destruct (picked_unique pn p r0 r Hs Hr).
      unfold hit_of at 1. rewrite Hd. reflexivity.
    + intros _. unfold hit_of at 1.
      destruct (Text.is_empty (default "" (tin_desc r0))); [| eauto].
      destruct (or_else _ _) as [h |]; [| eauto].
      destruct Hidx as (r' & Hr' & Hx & ->). eauto.
    + intros Hn. destruct (Hn r0). left. exact Hs.
  - unfold no_hit. cbn [Text.is_empty]. split; [| split].
    + intros r Hr. destruct (Hns r Hr).
    + intros [r [Hr | [Hr Hx]]]; [destruct (Hns r Hr) |].
      destruct (or_else _ _) as [h |]; [| destruct (Hidx r Hr Hx)].
      destruct Hidx as (r' & Hr' & Hx' & ->). eauto.
    + intros Hn. destruct (or_else _ _) as [h |]; [| reflexivity].
      destruct Hidx as (r' & Hr' & Hx' & _). destruct (Hn r'). right. auto.
Qed.

(** *** Templates *)

(** The quantity [_preload_templates] stores is the stated one, 1 when
    there is none, and 1 at least. *)
Lemma template_qty_stated (has_qts : bool) r :
  Py.at_least_one (template_qty has_qts (tpl_qts r))
  = match stated_quantity has_qts r with
    | Some q => Z.max 1 q
    | None => 1
    end.
Proof.
  unfold template_qty, stated_quantity, Py.at_least_one.
  destruct has_qts; [| reflexivity].
  destruct (tpl_qts r) as [raw |]; [| reflexivity]. cbn.
  destruct (float_of_str raw) as [f |]; [| reflexivity]. cbn.
  destruct (Py.int_of_float f); reflexivity.
Qed.

Lemma template_fold_lookup (tpl : templates_table) T rows
    (ts : gmap string (list (string * Z))) :
  default [] (foldl (template_step (tpl_has_qts tpl)) ts rows
              !! str_lower (Text.strip T))
  = default [] (ts !! str_lower (Text.strip T))
    ++ template_pairs (TemplatesTable (tpl_has_qts tpl) rows) T.
Proof.
  revert ts. induction rows as [| r rows IH]; intros ts.
  - cbn. rewrite app_nil_r. reflexivity.
  - cbn [foldl]. rewrite IH. unfold template_pairs at 2. cbn [tpl_rows omap list_omap].
    fold (template_pairs (TemplatesTable (tpl_has_qts tpl) rows) T).
    unfold template_step. cbn [tpl_has_qts].
    destruct (Text.is_empty _ || Text.is_empty _); [reflexivity |].
    rewrite template_qty_stated.
    destruct (String.eqb_spec (str_lower (Text.strip (default "" (tpl_type r))))
                (str_lower (Text.strip T))) as [E | E].
    + rewrite E, lookup_insert_eq. cbn. rewrite <- app_assoc. reflexivity.
    + rewrite lookup_insert_ne by exact E. reflexivity.
Qed.

(** What [_preload_templates] holds for a name is the pairs of the
    table. *)
Lemma preload_templates_lookup (p : Panel) T :
  default [] (templates (_preload_templates p) !! str_lower (Text.strip T))
  = match engine p ≫= db_templates with
    | Some tpl => template_pairs tpl T
    | None => []
    end.
Proof.
  unfold _preload_templates. cbn [engine set_templates].
  destruct (engine p) as [db |]; cbn; [| rewrite lookup_empty; reflexivity].
  destruct (db_templates db) as [[hq rows] |]; cbn; [| rewrite lookup_empty; reflexivity].
  rewrite (template_fold_lookup (TemplatesTable hq rows)). cbn.
  rewrite lookup_empty. reflexivity.
Qed.

End Caches.

(** ** mag_panel.py: the grid *)

Section Totals.
Context `{Python} `{Postgres}.

(** The loop of [_recalc_totals] keeps two independent sums. *)
Lemma totals_fold L t a b :
  foldl (totals_step L) (a, b) t =
    (foldl PrimFloat.add a
       ((fun rw => Py.float_of_int (row_qty rw) * row_list_pu rw)%float <$> t),
     foldl PrimFloat.add b
       ((fun rw => Py.float_of_int (row_qty rw) * row_trm_base rw * L)%float <$> t)).
Proof.
  revert a b. induction t as [| rw t IH]; intros a b; [reflexivity |].
  cbn [foldl fmap list_fmap]. unfold totals_step at 2. cbn [fst snd].
  rewrite IH. reflexivity.
Qed.

(** What the loop reads of a line is what the line shows and stores. *)
Lemma row_qty_parsed (rw : Qt.row) :
  float_reads_zero -> row_qty rw = default 0 (parsed_quantity rw).
Proof.
  intros [Hempty Hzero]. unfold row_qty, parsed_quantity.
  change (Qt.cell COL_QTY rw) with (Qt.c_qty rw).
  destruct (Qt.c_qty rw) as [it |]; [| reflexivity]. cbn [mbind option_bind].
  destruct (Qt.text it) as [| c s] eqn:E; cbn [Text.is_empty].
  - change (Text.replace "," "." "0") with "0". change (Text.replace "," "." "") with "".
    rewrite Hempty. cbn [mbind option_bind default].
    destruct (float_of_str "0") as [f |]; cbn in Hzero; [| discriminate].
    rewrite Hzero. reflexivity.
  - destruct (float_of_str (Text.replace "," "." (String c s))) as [f |]; reflexivity.
Qed.

Lemma price_number_or_zero (stored : option float) :
  Py.or_zero stored = price_number stored.
Proof.
  destruct stored as [x |]; [| reflexivity]. unfold Py.or_zero, Py.truthy, price_number.
  destruct (PrimFloat.eqb x 0); reflexivity.
Qed.

Lemma row_list_pu_stored (rw : Qt.row) : row_list_pu rw = line_p rw.
Proof.
  unfold row_list_pu, line_p, stored_prices. cbn [fst].
  change (Qt.cell COL_PRICE_LIST rw) with (Qt.c_price_list rw).
  destruct (Qt.c_price_list rw) as [it |]; [| reflexivity]. apply price_number_or_zero.
Qed.

Lemma row_trm_base_stored (rw : Qt.row) : row_trm_base rw = line_b rw.
Proof.
  unfold row_trm_base, line_b, stored_prices. cbn [snd].
  change (Qt.cell COL_PRICE_TRIMM rw) with (Qt.c_price_trimm rw).
  destruct (Qt.c_price_trimm rw) as [it |]; [| reflexivity]. apply price_number_or_zero.
Qed.

(** The two running sums, in the words of the specification. *)
Lemma totals_sums L t :
  float_reads_zero ->
  foldl (totals_step L) (0, 0)%float t =
    (fsum ((fun rw => line_q rw * line_p rw)%float <$> t),
     fsum ((fun rw => line_q rw * line_b rw * L)%float <$> t)).
Proof.
  intros Hf. rewrite totals_fold. unfold fsum, line_q.
  f_equal; f_equal; apply list_fmap_ext; intros i rw _;
    rewrite (row_qty_parsed rw Hf), ?row_list_pu_stored, ?row_trm_base_stored; reflexivity.
Qed.

(** C1. The total [_recalc_totals] displays is
    (sum of q_i * p_i) * (1 - d/100) * K, and the margin it displays is
    (listTotal - trimmTotal) / trimmTotal, as a percentage, when
    trimmTotal = (sum of q_i * b_i * L) * K is positive, and a dash
    otherwise; q_i is the number the quantity cell of line i shows, cut to
    an integer (0 when the cell does not parse), p_i and b_i the list
    price and the base trimm price the line stores. The arithmetic is
    binary64, each sum taken in table order; of the builtin [float] it is
    assumed that the empty text is no number and that "0" is zero. *)
Theorem recalc_totals_formula (p : Panel) :
  float_reads_zero ->
  let d := discountSpin p in
  let L := logisticsSpin p in
  let K := kursSpin p in
  let listTotal := list_total_of (table p) d K in
  let trimmTotal := trimm_total_of (table p) L K in
  lbl_total (_recalc_totals p) = ("Итого: " ++ Py.format_2f listTotal)%string /\
  lbl_margin (_recalc_totals p) =
    if (0 <? trimmTotal)%float
    then ("Маржа: " ++ Py.format_2f ((listTotal - trimmTotal) / trimmTotal * 100)
            ++ "%")%string
    else "Маржа: —".
Proof.
  intros Hf. cbn zeta. unfold _recalc_totals, list_total_of, trimm_total_of.
  cbn [lbl_total lbl_margin set_labels]. rewrite (totals_sums _ _ Hf). cbn [fst snd].
  split; reflexivity.
Qed.


End Totals.

Ltac slot_cases :=
  unfold setItem, setText, takeItem, _on_table_item_changed;
  repeat match goal with
         | |- context [match ?x with _ => _ end] => destruct x eqn:?
         end;
  try reflexivity.

Section GridFacts.
Context `{Python} `{Postgres}.

(** *** The cell store *)

Lemma put_length r c v (t : Qt.table) : length (Qt.put r c v t) = length t.
Proof. apply length_alter. Qed.

Lemma put_middle c v (l1 l2 : Qt.table) a :
  Qt.put (length l1) c v (l1 ++ a :: l2) = l1 ++ Qt.set_cell c v a :: l2.
Proof.
  unfold Qt.put. rewrite alter_app_r_alt by lia.
  replace (length l1 - length l1)%nat with 0%nat by lia. reflexivity.
Qed.

Lemma item_at_middle c (l1 l2 : Qt.table) a :
  Qt.item_at (length l1) c (l1 ++ a :: l2) = Qt.cell c a.
Proof. unfold Qt.item_at. rewrite list_lookup_middle by reflexivity. reflexivity. Qed.

Lemma set_cell_out c v rw : (Qt.columnCount <= c)%nat -> Qt.set_cell c v rw = rw.
Proof.
  unfold Qt.columnCount. intros Hc. destruct rw.
  do 8 (destruct c as [| c]; [lia |]). reflexivity.
Qed.

Lemma put_invalid r c v (t : Qt.table) : Qt.valid r c t = false -> Qt.put r c v t = t.
Proof.
  unfold Qt.valid, Qt.put. intros [Hr | Hc]%andb_false_iff.
  - apply Nat.ltb_ge in Hr. apply list_eq. intros i. rewrite list_lookup_alter.
    case_decide; [subst; rewrite (lookup_ge_None_2 t i Hr) |]; reflexivity.
  - apply Nat.ltb_ge in Hc. apply list_alter_id. intros rw. apply set_cell_out, Hc.
Qed.

(** *** The slots leave the rest of the panel alone *)

Lemma recalc_outside p : outside_grid (_recalc_totals p) = outside_grid p.
Proof. reflexivity. Qed.

Lemma recalc_table p : table (_recalc_totals p) = table p.
Proof. reflexivity. Qed.

Lemma recalc_building p : _building_table (_recalc_totals p) = _building_table p.
Proof. reflexivity. Qed.

Lemma recalc_idem p : _recalc_totals (_recalc_totals p) = _recalc_totals p.
Proof. reflexivity. Qed.

Lemma fresh_recalc p : labels_fresh (_recalc_totals p).
Proof. split; reflexivity. Qed.

(** The labels are a function of the table and the three settings. *)
Lemma recalc_labels_ext p q :
  table p = table q -> discountSpin p = discountSpin q ->
  logisticsSpin p = logisticsSpin q -> kursSpin p = kursSpin q ->
  lbl_total (_recalc_totals p) = lbl_total (_recalc_totals q) /\
  lbl_margin (_recalc_totals p) = lbl_margin (_recalc_totals q).
Proof.
  intros Ht Hd Hl Hk. unfold _recalc_totals. cbn [lbl_total lbl_margin set_labels].
  rewrite Ht, Hd, Hl, Hk. split; reflexivity.
Qed.

Lemma outside_settings p q :
  outside_grid p = outside_grid q ->
  discountSpin p = discountSpin q /\ logisticsSpin p = logisticsSpin q /\
  kursSpin p = kursSpin q.
Proof.
  intros E. repeat split.
  - exact (f_equal discountSpin E).
  - exact (f_equal logisticsSpin E).
  - exact (f_equal kursSpin E).
Qed.

Lemma fresh_ext_settings p q :
  table p = table q -> discountSpin p = discountSpin q ->
  logisticsSpin p = logisticsSpin q -> kursSpin p = kursSpin q ->
  lbl_total p = lbl_total q -> lbl_margin p = lbl_margin q ->
  labels_fresh p -> labels_fresh q.
Proof.
  intros Ht Hd Hl Hk Hlt Hlm [F1 F2].
  destruct (recalc_labels_ext p q Ht Hd Hl Hk) as [E1 E2].
  split; congruence.
Qed.

Lemma fresh_ext p q :
  table p = table q -> outside_grid p = outside_grid q ->
  lbl_total p = lbl_total q -> lbl_margin p = lbl_margin q ->
  labels_fresh p -> labels_fresh q.
Proof.
  intros Ht Ho. destruct (outside_settings p q Ho) as (Hd & Hl & Hk).
  apply fresh_ext_settings; assumption.
Qed.

Lemma setItem_table r c v p : table (setItem r c v p) = Qt.put r c v (table p).
Proof. slot_cases. Qed.

Lemma setItem_outside r c v p : outside_grid (setItem r c v p) = outside_grid p.
Proof. slot_cases. Qed.

Lemma setItem_building r c v p : _building_table (setItem r c v p) = _building_table p.
Proof. slot_cases. Qed.

Lemma setItem_quiet r c v p :
  _building_table p = true ->
  setItem r c v p = set_table (Qt.put r c v (table p)) p.
Proof.
  intros Hb. unfold setItem, _on_table_item_changed. cbn [_building_table set_table].
  rewrite Hb. destruct v, (Qt.valid r c (table p)); reflexivity.
Qed.

Lemma setItem_signal r c it p :
  _building_table p = false -> Qt.valid r c (table p) = true ->
  setItem r c (Some it) p = _recalc_totals (set_table (Qt.put r c (Some it) (table p)) p).
Proof.
  intros Hb Hv. unfold setItem, _on_table_item_changed. cbn [_building_table set_table].
  rewrite Hb, Hv. reflexivity.
Qed.

(** [setItem] keeps the labels up to date when no row is being built. *)
Lemma setItem_fresh r c it p :
  _building_table p = false -> labels_fresh p -> labels_fresh (setItem r c (Some it) p).
Proof.
  intros Hb Hf. destruct (Qt.valid r c (table p)) eqn:Hv.
  - rewrite setItem_signal by assumption. apply fresh_recalc.
  - unfold setItem. rewrite Hv.
    apply (fresh_ext p); try reflexivity; try exact Hf.
    cbn [table set_table]. symmetry. apply put_invalid, Hv.
Qed.

Lemma setText_table r c s p :
  table (setText r c s p) =
    match Qt.item_at r c (table p) with
    | Some it => Qt.put r c (Some (Qt.setText s it)) (table p)
    | None => table p
    end.
Proof. slot_cases. Qed.

Lemma setText_outside r c s p : outside_grid (setText r c s p) = outside_grid p.
Proof. slot_cases. Qed.

Lemma setText_building r c s p : _building_table (setText r c s p) = _building_table p.
Proof. slot_cases. Qed.

Lemma setText_fresh r c s p :
  _building_table p = false -> labels_fresh p -> labels_fresh (setText r c s p).
Proof.
  intros Hb Hf. unfold setText, _on_table_item_changed.
  destruct (Qt.item_at r c (table p)); [| exact Hf].
  cbn [_building_table set_table]. rewrite Hb. apply fresh_recalc.
Qed.

(** *** Loops over the rows *)

(** A loop of slots acts on the table as the loop of their actions on
    the cell store. *)
Lemma fold_slots (stepP : Panel -> nat -> Panel)
    (stepT : Qt.table -> nat -> Qt.table) :
  (forall p r, table (stepP p r) = stepT (table p) r) ->
  (forall p r, outside_grid (stepP p r) = outside_grid p) ->
  (forall p r, _building_table (stepP p r) = _building_table p) ->
  forall l p,
    table (foldl stepP p l) = foldl stepT (table p) l /\
    outside_grid (foldl stepP p l) = outside_grid p /\
    _building_table (foldl stepP p l) = _building_table p.
Proof.
  intros Ht Ho Hb l. induction l as [| r l IH]; intros p; cbn [foldl].
  - repeat split.
  - destruct (IH (stepP p r)) as (E1 & E2 & E3).
    rewrite E1, E2, E3, Ht, Ho, Hb. repeat split.
Qed.

(** A loop that rewrites row [r] at turn [r] rewrites every row. *)
Lemma fold_rows (stepT : Qt.table -> nat -> Qt.table) (g : nat -> Qt.row -> Qt.row) :
  (forall l1 a l2, stepT (l1 ++ a :: l2) (length l1) = l1 ++ g (length l1) a :: l2) ->
  forall l2 l1,
    foldl stepT (l1 ++ l2) (seq (length l1) (length l2))
    = l1 ++ imap (fun i => g (length l1 + i)%nat) l2.
Proof.
  intros Hstep l2. induction l2 as [| a l2 IH]; intros l1.
  - reflexivity.
  - cbn [length seq foldl]. rewrite Hstep.
    replace (l1 ++ g (length l1) a :: l2) with ((l1 ++ [g (length l1) a]) ++ l2)
      by (rewrite <- app_assoc; reflexivity).
    replace (S (length l1)) with (length (l1 ++ [g (length l1) a]))
      by (rewrite length_app; cbn; lia).
    rewrite IH, <- app_assoc. cbn [app]. f_equal.
    rewrite imap_cons. rewrite Nat.add_0_r. f_equal.
    apply imap_ext. intros i x _. cbn. f_equal. rewrite length_app. cbn. lia.
Qed.

Lemma fold_rows_0 (stepT : Qt.table -> nat -> Qt.table) (g : nat -> Qt.row -> Qt.row) :
  (forall l1 a l2, stepT (l1 ++ a :: l2) (length l1) = l1 ++ g (length l1) a :: l2) ->
  forall t, foldl stepT t (seq 0 (length t)) = imap g t.
Proof. intros Hstep t. apply (fold_rows stepT g Hstep t []). Qed.

(** *** [_renumber] *)

Lemma renumber_facts p :
  table (_renumber p) = renumbered (table p) /\
  outside_grid (_renumber p) = outside_grid p /\
  _building_table (_renumber p) = _building_table p.
Proof.
  unfold _renumber, Qt.rowCount.
  destruct (fold_slots
              (fun p r => setItem r COL_NO (Some (Qt.new_item (str_of_nat (r + 1)))) p)
              (fun t r => Qt.put r COL_NO (Some (Qt.new_item (str_of_nat (r + 1)))) t)
              ltac:(intros; apply setItem_table) ltac:(intros; apply setItem_outside)
              ltac:(intros; apply setItem_building) (seq 0 (length (table p))) p)
    as (E1 & E2 & E3).
  rewrite E1, E2, E3. repeat split.
  apply (fold_rows_0 _ (fun i rw => Qt.set_cell COL_NO
                                      (Some (Qt.new_item (str_of_nat (i + 1)))) rw)).
  intros l1 a l2. apply put_middle.
Qed.

Lemma renumbered_length t : length (renumbered t) = length t.
Proof. apply length_imap. Qed.

Lemma renumbered_identity t : line_identity <$> renumbered t = line_identity <$> t.
Proof.
  unfold renumbered. rewrite fmap_imap. rewrite <- (imap_const line_identity t).
  apply imap_ext. intros i rw _. destruct rw. reflexivity.
Qed.

Lemma renumbered_numbers t : Qt.c_no <$> renumbered t = numbering (length t).
Proof.
  unfold renumbered, numbering. rewrite fmap_imap.
  rewrite <- (imap_seq_0 t (fun i => Some (Qt.new_item (str_of_nat (i + 1))))).
  apply imap_ext. intros i rw _. destruct rw. reflexivity.
Qed.

(** A loop of [setItem] keeps the labels up to date. *)
Lemma fold_setItem_fresh c (v : nat -> Qt.item) l p :
  _building_table p = false -> labels_fresh p ->
  labels_fresh (foldl (fun p r => setItem r c (Some (v r)) p) p l).
Proof.
  revert p. induction l as [| r l IH]; intros p Hb Hf; cbn [foldl]; [exact Hf |].
  apply IH.
  - rewrite setItem_building. exact Hb.
  - apply setItem_fresh; assumption.
Qed.

Lemma renumber_fresh p : _building_table p = false -> labels_fresh p -> labels_fresh (_renumber p).
Proof. intros Hb Hf. apply fold_setItem_fresh; assumption. Qed.

(** On a table with a row, the last [setItem] of [_renumber] recomputes
    the labels. *)
Lemma renumber_refreshes p :
  _building_table p = false -> table p <> [] -> labels_fresh (_renumber p).
Proof.
  intros Hb Hne. unfold _renumber, Qt.rowCount.
  destruct (length (table p)) as [| n] eqn:Hn.
  { destruct (table p); [contradiction | discriminate]. }
  rewrite seq_S, foldl_snoc. cbn [plus].
  set (step := fun p r => setItem r COL_NO (Some (Qt.new_item (str_of_nat (r + 1)))) p).
  destruct (fold_slots step
              (fun t r => Qt.put r COL_NO (Some (Qt.new_item (str_of_nat (r + 1)))) t)
              ltac:(intros; apply setItem_table) ltac:(intros; apply setItem_outside)
              ltac:(intros; apply setItem_building) (seq 0 n) p)
    as (E1 & _ & E3).
  rewrite setItem_signal.
  - apply fresh_recalc.
  - rewrite E3. exact Hb.
  - unfold Qt.valid. rewrite E1.
    assert (forall l t, length (foldl (fun t r => Qt.put r COL_NO
              (Some (Qt.new_item (str_of_nat (r + 1)))) t) t l) = length t) as Hlen.
    { intros l. induction l as [| r l IH]; intros t; cbn [foldl]; [reflexivity |].
      rewrite IH. apply put_length. }
    rewrite Hlen, Hn. apply andb_true_iff. split; [apply Nat.ltb_lt; lia | reflexivity].
Qed.

(** *** [_add_row_by_pn] *)

Lemma insertRow_end (t : Qt.table) : Qt.insertRow (length t) t = t ++ [Qt.empty_row].
Proof.
  unfold Qt.insertRow. rewrite Nat.leb_refl, take_ge, drop_ge by lia. reflexivity.
Qed.

Lemma put_last c v (t : Qt.table) a :
  Qt.put (length t) c v (t ++ [a]) = t ++ [Qt.set_cell c v a].
Proof. apply put_middle. Qed.

(** With a part number, [_add_row_by_pn] appends one row, built from the
    reference lookup, and touches nothing else but the flag it leaves
    down. *)
Lemma add_row_shape pn qty p :
  Text.is_empty pn = false ->
  _add_row_by_pn pn qty p =
    (1%nat,
     set_building false
       (set_table (table p ++ [new_line (length (table p)) pn qty
                                 (reference_lookup pn p) (logisticsSpin p)]) p)).
Proof.
  intros Hpn. unfold _add_row_by_pn. rewrite Hpn.
  destruct (reference_lookup pn p) as [[[desc pack] pl] pt] eqn:R.
  cbn zeta. unfold fill_row, Qt.rowCount. cbn [table set_table set_building].
  f_equal.
  repeat (rewrite setItem_quiet by (rewrite ?setItem_building; reflexivity);
          cbn [table set_table set_building _building_table]).
  rewrite insertRow_end. rewrite !put_last. unfold new_line. cbn [logisticsSpin].
  reflexivity.
Qed.

Lemma add_row_nothing qty p : _add_row_by_pn "" qty p = (0%nat, p).
Proof. reflexivity. Qed.

(** *** [delete_selected] *)

Lemma insert_desc_elem x y l : y ∈ insert_desc x l <-> y = x \/ y ∈ l.
Proof.
  induction l as [| z l IH]; cbn [insert_desc].
  - rewrite list_elem_of_singleton, elem_of_nil. tauto.
  - destruct (Nat.ltb_spec z x); [apply elem_of_cons |].
    destruct (Nat.eqb_spec x z) as [-> | Hne]; [rewrite elem_of_cons; tauto |].
    rewrite !elem_of_cons, IH. tauto.
Qed.

Lemma sorted_desc_elem y l : y ∈ sorted_desc l <-> y ∈ l.
Proof.
  induction l as [| x l IH]; cbn; [reflexivity |].
  rewrite insert_desc_elem, elem_of_cons, IH. reflexivity.
Qed.

Lemma insert_desc_decreasing x l : decreasing l -> decreasing (insert_desc x l).
Proof.
  induction l as [| z l IH]; cbn [insert_desc decreasing].
  - intros _. split; [intros y Hy; inversion Hy | exact I].
  - intros [Hz Hl]. destruct (Nat.ltb_spec z x).
    + cbn [decreasing]. split; [| split; assumption].
      intros y [-> | Hy]%elem_of_cons; [assumption |]. specialize (Hz y Hy). lia.
    + destruct (Nat.eqb_spec x z) as [-> | Hne]; [split; assumption |].
      cbn [decreasing]. split; [| apply IH, Hl].
      intros y [-> | Hy]%insert_desc_elem; [lia | apply Hz, Hy].
Qed.

Lemma sorted_desc_decreasing l : decreasing (sorted_desc l).
Proof.
  induction l as [| x l IH]; cbn; [exact I | apply insert_desc_decreasing, IH].
Qed.

Lemma unselected_from_ext i sel sel' (t : Qt.table) :
  (forall x, x ∈ sel <-> x ∈ sel') ->
  unselected_from i sel t = unselected_from i sel' t.
Proof.
  intros E. revert i. induction t as [| rw t IH]; intros i; cbn; [reflexivity |].
  rewrite (bool_decide_ext _ _ (E i)), !IH. reflexivity.
Qed.

Lemma unselected_from_below i sel (t : Qt.table) :
  (forall x, x ∈ sel -> (x < i)%nat) -> unselected_from i sel t = t.
Proof.
  revert i. induction t as [| rw t IH]; intros i Hlt; cbn; [reflexivity |].
  rewrite bool_decide_eq_false_2 by (intros Hi; specialize (Hlt i Hi); lia).
  rewrite IH; [reflexivity |]. intros x Hx. specialize (Hlt x Hx). lia.
Qed.

Lemma unselected_from_delete i r sel (t : Qt.table) :
  (i <= r)%nat -> (forall x, x ∈ sel -> (x < r)%nat) ->
  unselected_from i sel (delete (r - i)%nat t) = unselected_from i (r :: sel) t.
Proof.
  revert i. induction t as [| rw t IH]; intros i Hi Hlt; [reflexivity |].
  destruct (decide (r = i)) as [-> | Hne].
  - rewrite Nat.sub_diag. cbn [delete list_delete unselected_from].
    rewrite bool_decide_eq_true_2 by (apply elem_of_cons; left; reflexivity).
    rewrite !unselected_from_below; try reflexivity.
    + intros x [-> | Hx]%elem_of_cons; [lia |]. specialize (Hlt x Hx). lia.
    + intros x Hx. specialize (Hlt x Hx). lia.
  - replace (r - i)%nat with (S (r - S i)) by lia. cbn [delete list_delete unselected_from].
    rewrite IH by (assumption || lia).
    assert (i ∈ sel <-> i ∈ r :: sel) as E by (rewrite elem_of_cons; intuition congruence).
    rewrite (bool_decide_ext _ _ E). reflexivity.
Qed.

Lemma fold_delete_decreasing rs (t : Qt.table) :
  decreasing rs -> foldl (fun t r => Qt.removeRow r t) t rs = unselected rs t.
Proof.
  revert t. induction rs as [| r rs IH]; intros t; cbn [foldl decreasing].
  - intros _. unfold unselected. symmetry. apply unselected_from_below.
    intros x Hx. inversion Hx.
  - intros [Hr Hd]. rewrite IH by exact Hd. unfold unselected, Qt.removeRow.
    rewrite <- (unselected_from_delete 0 r rs t) by (lia || exact Hr).
    rewrite Nat.sub_0_r. reflexivity.
Qed.

Lemma delete_selected_facts sel p :
  table (delete_selected sel p) = renumbered (unselected sel (table p)) /\
  outside_grid (delete_selected sel p) = outside_grid p /\
  _building_table (delete_selected sel p) = _building_table p.
Proof.
  unfold delete_selected. rewrite recalc_table, recalc_outside, recalc_building.
  set (q := foldl (fun p r => set_table (Qt.removeRow r (table p)) p) p (sorted_desc sel)).
  destruct (renumber_facts q) as (E1 & E2 & E3). rewrite E1, E2, E3.
  destruct (fold_slots (fun p r => set_table (Qt.removeRow r (table p)) p)
              (fun t r => Qt.removeRow r t)
              ltac:(reflexivity) ltac:(reflexivity) ltac:(reflexivity)
              (sorted_desc sel) p) as (F1 & F2 & F3).
  fold q in F1, F2, F3. rewrite F1, F2, F3. repeat split.
  rewrite fold_delete_decreasing by apply sorted_desc_decreasing.
  f_equal. apply unselected_from_ext. intros x. apply sorted_desc_elem.
Qed.

(** *** [_clear_cat_numbers] *)


(** *** [_move_row_with_cat_down] *)

Lemma has_cat_row r p :
  has_cat r p = match table p !! r with Some rw => row_has_cat rw | None => false end.
Proof.
  unfold has_cat, Qt.item_at, row_has_cat. destruct (table p !! r); reflexivity.
Qed.

Lemma find_ext {A} (f g : A -> bool) l :
  (forall x, f x = g x) -> List.find f l = List.find g l.
Proof.
  intros E. induction l as [| x l IH]; cbn; [reflexivity |]. rewrite E, IH. reflexivity.
Qed.

Lemma find_first_cat p :
  List.find (fun r => has_cat r p) (seq 0 (Qt.rowCount (table p) - 1))
  = first_cat_row (table p).
Proof. apply find_ext. intros r. apply has_cat_row. Qed.

(** One turn of the cell loop moves one cell from row [r] to row
    [r + 2]. *)
Lemma move_cell_step c (l1 l2 : Qt.table) a b e :
  Qt.put (length l1 + 2) c (Qt.item_at (length l1) c (l1 ++ a :: b :: e :: l2))
    (Qt.put (length l1) c None (l1 ++ a :: b :: e :: l2))
  = l1 ++ Qt.set_cell c None a :: b :: Qt.set_cell c (Qt.cell c a) e :: l2.
Proof.
  rewrite item_at_middle, put_middle.
  replace (l1 ++ Qt.set_cell c None a :: b :: e :: l2)
    with ((l1 ++ [Qt.set_cell c None a; b]) ++ e :: l2)
    by (rewrite <- app_assoc; reflexivity).
  replace (length l1 + 2)%nat with (length (l1 ++ [Qt.set_cell c None a; b]))
    by (rewrite length_app; reflexivity).
  rewrite put_middle, <- app_assoc. reflexivity.
Qed.

Lemma move_cells (l1 l2 : Qt.table) a b :
  foldl (fun t c => Qt.put (length l1 + 2) c (Qt.item_at (length l1) c t)
                      (Qt.put (length l1) c None t))
        (l1 ++ a :: b :: Qt.empty_row :: l2) (seq 0 Qt.columnCount)
  = l1 ++ Qt.empty_row :: b :: a :: l2.
Proof.
  cbn [seq Qt.columnCount foldl]. rewrite !move_cell_step. destruct a. reflexivity.
Qed.

Lemma move_row_down_facts r p a b :
  table p !! r = Some a -> table p !! (r + 1)%nat = Some b ->
  table (move_row_down r p) = swap_down r (table p) /\
  outside_grid (move_row_down r p) = outside_grid p /\
  _building_table (move_row_down r p) = _building_table p.
Proof.
  intros Ha Hb. unfold move_row_down.
  set (p1 := set_table (Qt.insertRow (r + 2) (table p)) p).
  destruct (fold_slots
              (fun p c => let '(src, p) := takeItem r c p in setItem (r + 2) c src p)
              (fun t c => Qt.put (r + 2) c (Qt.item_at r c t) (Qt.put r c None t))
              ltac:(intros; unfold takeItem; apply setItem_table)
              ltac:(intros; unfold takeItem; rewrite setItem_outside; reflexivity)
              ltac:(intros; unfold takeItem; rewrite setItem_building; reflexivity)
              (seq 0 Qt.columnCount) p1) as (E1 & E2 & E3).
  match goal with |- context [set_table _ ?x] => set (q := x) in * end.
  split; [| split].
  2: { transitivity (outside_grid q); [reflexivity | rewrite E2; reflexivity]. }
  2: { transitivity (_building_table q); [reflexivity | rewrite E3; reflexivity]. }
  cbn [table set_table]. rewrite E1.
  assert (table p = take r (table p) ++ a :: b :: drop (r + 2) (table p)) as Ht.
  { rewrite <- (take_drop_middle (table p) r a Ha) at 1. do 2 f_equal.
    replace (r + 2)%nat with (S (S r)) by lia.
    apply drop_S. replace (S r) with (r + 1)%nat by lia. exact Hb. }
  assert (length (take r (table p)) = r) as Hl.
  { rewrite length_take. apply lookup_lt_Some in Ha. lia. }
  unfold swap_down. rewrite Ha, Hb.
  set (l1 := take r (table p)) in *. set (l2 := drop (r + 2) (table p)) in *.
  unfold p1. cbn [table set_table].
  assert (Qt.insertRow (r + 2) (table p) = l1 ++ a :: b :: Qt.empty_row :: l2) as ->.
  { unfold Qt.insertRow.
    assert (r + 2 <= length (table p))%nat as Hle
      by (apply lookup_lt_Some in Hb; lia).
    apply Nat.leb_le in Hle. rewrite Hle. fold l2. rewrite Ht at 1.
    replace (l1 ++ a :: b :: l2) with ((l1 ++ [a; b]) ++ l2)
      by (rewrite <- app_assoc; reflexivity).
    rewrite take_app_length' by (rewrite length_app; cbn; lia).
    rewrite <- app_assoc. reflexivity. }
  rewrite <- Hl. rewrite move_cells. unfold Qt.removeRow. apply delete_middle.
Qed.

Lemma first_cat_row_rows (t : Qt.table) r :
  first_cat_row t = Some r -> exists a b, t !! r = Some a /\ t !! (r + 1)%nat = Some b.
Proof.
  unfold first_cat_row. intros Hf. apply find_some in Hf as [Hin Hc].
  apply in_seq in Hin. destruct (t !! r) as [a |] eqn:Ha; [| discriminate].
  destruct (lookup_lt_is_Some_2 t (r + 1)) as [b Hb]; [lia |]. eauto.
Qed.

Lemma move_row_facts p :
  table (_move_row_with_cat_down p)
    = renumbered (match first_cat_row (table p) with
                  | Some r => swap_down r (table p)
                  | None => table p
                  end) /\
  outside_grid (_move_row_with_cat_down p) = outside_grid p /\
  _building_table (_move_row_with_cat_down p) = _building_table p.
Proof.
  unfold _move_row_with_cat_down.
  rewrite recalc_table, recalc_outside, recalc_building, find_first_cat.
  destruct (first_cat_row (table p)) as [r |] eqn:F.
  - destruct (first_cat_row_rows _ _ F) as (a & b & Ha & Hb).
    destruct (move_row_down_facts r p a b Ha Hb) as (M1 & M2 & M3).
    destruct (renumber_facts (move_row_down r p)) as (E1 & E2 & E3).
    rewrite E1, E2, E3, M1, M2, M3. repeat split.
  - apply renumber_facts.
Qed.

(** *** [_on_logistics_changed] *)

Lemma rescale_row_table L p r :
  table (rescale_row L p r) =
    match Qt.item_at r COL_PRICE_TRIMM (table p) with
    | Some it =>
        Qt.put r COL_PRICE_TRIMM
          (Some (Qt.setText (rescaled L (Qt.base_trimm it)) it)) (table p)
    | None => table p
    end.
Proof.
  unfold rescale_row. destruct (Qt.item_at r COL_PRICE_TRIMM (table p)) as [it |] eqn:E;
    [| reflexivity].
  rewrite setText_table, E. unfold rescaled.
  destruct (Py.truthy (default 0%float (Qt.base_trimm it))); reflexivity.
Qed.

Lemma rescale_row_outside L p r : outside_grid (rescale_row L p r) = outside_grid p.
Proof.
  unfold rescale_row. destruct (Qt.item_at r COL_PRICE_TRIMM (table p));
    [apply setText_outside | reflexivity].
Qed.

Lemma rescale_row_building L p r :
  _building_table (rescale_row L p r) = _building_table p.
Proof.
  unfold rescale_row. destruct (Qt.item_at r COL_PRICE_TRIMM (table p));
    [apply setText_building | reflexivity].
Qed.

Lemma logistics_changed_facts p :
  table (_on_logistics_changed p) = rescaled_row (logisticsSpin p) <$> table p /\
  outside_grid (_on_logistics_changed p) = outside_grid p /\
  _building_table (_on_logistics_changed p) = false.
Proof.
  unfold _on_logistics_changed. rewrite recalc_table, recalc_outside, recalc_building.
  change (logisticsSpin (set_building true p)) with (logisticsSpin p).
  change (table (set_building true p)) with (table p).
  set (L := logisticsSpin p).
  destruct (fold_slots (rescale_row L)
              (fun t r => match Qt.item_at r COL_PRICE_TRIMM t with
                          | Some it =>
                              Qt.put r COL_PRICE_TRIMM
                                (Some (Qt.setText (rescaled L (Qt.base_trimm it)) it)) t
                          | None => t
                          end)
              (rescale_row_table L) (rescale_row_outside L) (rescale_row_building L)
              (seq 0 (Qt.rowCount (table p))) (set_building true p))
    as (E1 & E2 & E3).
  match goal with |- context [set_building false ?x] => set (q := x) in * end.
  split; [| split].
  2: { transitivity (outside_grid q); [reflexivity | rewrite E2; reflexivity]. }
  2: { reflexivity. }
  change (table (set_building false q)) with (table q). rewrite E1.
  change (table (set_building true p)) with (table p). unfold Qt.rowCount.
  rewrite (fold_rows_0 _ (fun _ rw => rescaled_row L rw)).
  - apply imap_const.
  - intros l1 a l2. rewrite item_at_middle. unfold rescaled_row.
    change (Qt.cell COL_PRICE_TRIMM a) with (Qt.c_price_trimm a).
    destruct (Qt.c_price_trimm a); [apply put_middle | reflexivity].
Qed.

(** *** Editing a cell *)


Lemma edit_cell_fresh r c s p :
  _building_table p = false -> labels_fresh p -> labels_fresh (edit_cell r c s p).
Proof.
  intros Hb Hf. unfold edit_cell. destruct (Qt.item_at r c (table p)).
  - apply setText_fresh; assumption.
  - apply setItem_fresh; assumption.
Qed.

(** *** Adding lines *)

Lemma reference_lookup_ext pn p q :
  engine p = engine q -> tin_ref_col p = tin_ref_col q -> tin_index p = tin_index q ->
  reference_lookup pn p = reference_lookup pn q.
Proof.
  intros He Hc Hi. unfold reference_lookup, _fetch_tin_by_pn. rewrite He, Hc, Hi.
  reflexivity.
Qed.

Lemma template_lines_ext n items p q :
  engine p = engine q -> tin_ref_col p = tin_ref_col q -> tin_index p = tin_index q ->
  logisticsSpin p = logisticsSpin q ->
  template_lines n items p = template_lines n items q.
Proof.
  intros He Hc Hi Hl. revert n. induction items as [| [pn qy] items IH]; intros n;
    cbn [template_lines]; [reflexivity |].
  rewrite !IH, Hl, (reference_lookup_ext pn p q He Hc Hi). reflexivity.
Qed.

Lemma add_to_summary_facts label option v p :
  (exists lines, table (add_to_summary label option v p) = renumbered (table p ++ lines)
                 /\ (length lines <= 1)%nat) /\
  outside_grid (add_to_summary label option v p) = outside_grid p /\
  labels_fresh (add_to_summary label option v p).
Proof.
  unfold add_to_summary.
  set (pn := match dict_get label LABEL_TO_TABLE with Some _ => _ | None => _ end).
  set (qty := Py.at_least_one _).
  destruct (Text.is_empty pn) eqn:Hpn.
  - assert (pn = "") as -> by (apply is_empty_eq, Hpn). rewrite add_row_nothing.
    rewrite recalc_table, recalc_outside.
    destruct (renumber_facts p) as (E1 & E2 & _). rewrite E1, E2.
    split; [exists []; rewrite app_nil_r; split; [reflexivity | cbn; lia] |].
    split; [reflexivity | apply fresh_recalc].
  - rewrite (add_row_shape pn qty p Hpn). rewrite recalc_table, recalc_outside.
    match goal with |- context [_renumber ?x] => destruct (renumber_facts x) as (E1 & E2 & _) end.
    rewrite E1, E2. split; [eexists; split; [reflexivity | cbn; lia] |].
    split; [reflexivity | apply fresh_recalc].
Qed.

(** The loop of [_apply_template]: the rows of the pairs are appended,
    one for each pair with a part number. *)
Lemma apply_template_fold items : forall k p,
  foldl (fun '(added, p) '(pn, qts) =>
           let '(n, p) := _add_row_by_pn pn qts p in ((added + n)%nat, p))
        (k, p) items
  = let lines := template_lines (length (table p)) items p in
    ((k + length lines)%nat,
     match lines with
     | [] => p
     | _ => set_building false (set_table (table p ++ lines) p)
     end).
Proof.
  induction items as [| [pn qy] items IH]; intros k p; cbn [foldl template_lines].
  - cbn. rewrite Nat.add_0_r. reflexivity.
  - destruct (Text.is_empty pn) eqn:Hpn.
    + assert (pn = "") as -> by (apply is_empty_eq, Hpn). rewrite add_row_nothing.
      rewrite Nat.add_0_r. apply IH.
    + rewrite (add_row_shape pn qy p Hpn). rewrite IH. cbn [table set_table set_building].
      set (l := new_line (length (table p)) pn qy (reference_lookup pn p) (logisticsSpin p)).
      rewrite length_app. cbn [length].
      replace (length (table p) + 1)%nat with (S (length (table p))) by lia.
      rewrite (template_lines_ext _ items
                 (set_building false (set_table (table p ++ [l]) p)) p)
        by reflexivity.
      cbn zeta. cbn [length]. f_equal; [lia |].
      destruct (template_lines (S (length (table p))) items p) as [| l' ls];
        [reflexivity |].
      cbn [table set_table set_building]. rewrite <- app_assoc. reflexivity.
Qed.

Lemma preload_templates_rest p :
  table (_preload_templates p) = table p /\
  engine (_preload_templates p) = engine p /\
  tin_ref_col (_preload_templates p) = tin_ref_col p /\
  tin_index (_preload_templates p) = tin_index p /\
  logisticsSpin (_preload_templates p) = logisticsSpin p.
Proof.
  unfold _preload_templates. cbn.
  destruct (engine p) as [db |] eqn:E; [| cbn; rewrite ?E; repeat split; reflexivity].
  destruct (db_templates db); cbn; rewrite ?E; repeat split; reflexivity.
Qed.

Lemma apply_template_table T p :
  let p1 := if bool_decide (templates p = ∅) then _preload_templates p else p in
  let items := default [] (templates p1 !! str_lower (Text.strip T)) in
  let lines := template_lines (length (table p)) items p in
  table (_apply_template T p)
    = match lines with [] => table p | _ => renumbered (table p ++ lines) end.
Proof.
  cbn zeta. unfold _apply_template.
  set (p1 := if bool_decide (templates p = ∅) then _preload_templates p else p).
  assert (table p1 = table p /\ engine p1 = engine p /\ tin_ref_col p1 = tin_ref_col p
          /\ tin_index p1 = tin_index p /\ logisticsSpin p1 = logisticsSpin p)
    as (Ht & He & Hc & Hi & Hl).
  { unfold p1. destruct (bool_decide (templates p = ∅));
      [apply preload_templates_rest | repeat split; reflexivity]. }
  remember (default [] (templates p1 !! str_lower (Text.strip T))) as items eqn:Hit.
  destruct items as [| it its]; [cbn; exact Ht |].
  rewrite apply_template_fold. cbn zeta.
  rewrite Ht, (template_lines_ext _ (it :: its) p1 p He Hc Hi Hl).
  destruct (template_lines (length (table p)) (it :: its) p) as [| l ls] eqn:L.
  - cbn. exact Ht.
  - cbn [length Nat.add].
    change (0 <? S (length ls))%nat with true. cbn iota.
    match goal with |- context [_renumber ?x] => destruct (renumber_facts x) as (E1 & _) end.
    rewrite E1. reflexivity.
Qed.

End GridFacts.

(** ** mag_panel.py: what the specification says of the grid *)

Section GridClaims.
Context `{Python} `{Postgres}.

(** *** The labels follow the table *)

Lemma preload_templates_shape p : exists ts, _preload_templates p = set_templates ts p.
Proof.
  unfold _preload_templates. cbn. destruct (engine p) as [db |]; [| eauto].
  destruct (db_templates db); eauto.
Qed.

(** [set_mode] assigns the two fields and raises. *)
Lemma set_mode_raises mode side p :
  exists m s, set_mode mode side p = (Raise "AttributeError", set_mode_fields m s p).
Proof. unfold set_mode. destruct (String.eqb _ "f"); eauto. Qed.

(** A template button that passes a mode never reaches
    [_apply_template]: the table and the labels stay. *)
Lemma template_button_stops type_name mode side p :
  truthy_str mode = true ->
  exists m s,
    _on_template_button type_name mode side p
    = (Raise "AttributeError", set_mode_fields m s p).
Proof.
  intros Hm. unfold _on_template_button. rewrite Hm.
  destruct (set_mode_raises (default "" mode) side p) as (m & s & ->). eauto.
Qed.

Lemma template_buttons_stop :
  Forall (fun b => truthy_str (snd (fst b)) = true) TEMPLATE_BUTTONS.
Proof. repeat constructor. Qed.

Lemma apply_template_fresh T p :
  _building_table p = false -> labels_fresh p -> labels_fresh (_apply_template T p).
Proof.
  intros Hb Hf. unfold _apply_template.
  set (p1 := if bool_decide (templates p = ∅) then _preload_templates p else p).
  assert (labels_fresh p1 /\ _building_table p1 = false) as [Hf1 Hb1].
  { unfold p1. destruct (bool_decide (templates p = ∅)); [| split; assumption].
    destruct (preload_templates_shape p) as [ts ->]. split; [| exact Hb].
    apply (fresh_ext_settings p); try reflexivity. exact Hf. }
  destruct (default [] (templates p1 !! str_lower (Text.strip T))) as [| it its];
    [exact Hf1 |].
  rewrite apply_template_fold. cbn zeta.
  destruct (template_lines (length (table p1)) (it :: its) p1) as [| l ls]; [exact Hf1 |].
  cbn [length Nat.add]. change (0 <? S (length ls))%nat with true. cbn iota.
  apply renumber_refreshes; [reflexivity |].
  cbn [table set_table set_building]. destruct (table p1); discriminate.
Qed.

(** Every event of the window but a new setting leaves the labels
    showing the totals of the table it leaves. *)
Lemma table_events_refresh (e : event) (p : Panel) :
  changes_setting e = false -> _building_table p = false -> labels_fresh p ->
  labels_fresh (after e p).
Proof.
  intros He Hb Hf.
  assert (forall m s, labels_fresh (set_mode_fields m s p)) as Hmode.
  { intros m s. apply (fresh_ext_settings p); try reflexivity. exact Hf. }
  destruct e; try discriminate; unfold after; cbn [handle snd].
  - destruct (truthy_str mode) eqn:Hm.
    + destruct (template_button_stops type_name mode side p Hm) as (m & s & ->). apply Hmode.
    + unfold _on_template_button. rewrite Hm. apply apply_template_fresh; assumption.
  - destruct (set_mode_raises mode None p) as (m & s & ->). apply Hmode.
  - unfold delete_selected. apply fresh_recalc.
  - unfold _clear_cat_numbers. apply fold_setItem_fresh; assumption.
  - unfold _move_row_with_cat_down. apply fresh_recalc.
  - apply edit_cell_fresh; assumption.
Qed.

(** A new setting is held by its box and nothing else changes: no total
    is written. *)
Lemma setting_events_write_nothing (e : event) (p : Panel) :
  changes_setting e = true ->
  table (after e p) = table p /\
  lbl_total (after e p) = lbl_total p /\ lbl_margin (after e p) = lbl_margin p.
Proof. destruct e; try discriminate; intros _; repeat split. Qed.

(** C7. After [delete_selected] the lines are those at the unselected
    positions, in order, and after [_move_row_with_cat_down] they are the
    lines as they were with the first row that has a part number (the last
    row apart) exchanged with the row below it; in both cases every cell of
    a line but its sequence number is what it was, and the sequence-number
    column reads 1..N in the new order. *)
Theorem delete_and_move_keep_lines (sel : list nat) (p : Panel) :
  (line_identity <$> table (delete_selected sel p)
     = line_identity <$> unselected sel (table p) /\
   Qt.c_no <$> table (delete_selected sel p)
     = numbering (length (table (delete_selected sel p)))) /\
  (line_identity <$> table (_move_row_with_cat_down p)
     = line_identity <$> match first_cat_row (table p) with
                         | Some r => swap_down r (table p)
                         | None => table p
                         end /\
   Qt.c_no <$> table (_move_row_with_cat_down p)
     = numbering (length (table (_move_row_with_cat_down p)))).
Proof.
  destruct (delete_selected_facts sel p) as (D & _).
  destruct (move_row_facts p) as (M & _).
  rewrite D, M, !renumbered_identity, !renumbered_numbers, !renumbered_length.
  repeat split.
Qed.

(** *** Templates *)

Lemma template_pairs_lines (tpl : templates_table) T n p :
  line_key <$> template_lines n (template_pairs tpl T) p
  = (fun '(pn, q) => (Some pn, Some (Text.str_of_int q))) <$> template_pairs tpl T.
Proof.
  unfold template_pairs. revert n.
  induction (tpl_rows tpl) as [| r rows IH]; intros n; [reflexivity |].
  cbn [omap list_omap].
  destruct (Text.is_empty (Text.strip (default "" (tpl_type r)))
            || Text.is_empty (norm_ref (tpl_pn r))) eqn:E; [apply IH |].
  destruct (String.eqb _ (str_lower (Text.strip T))); [| apply IH].
  cbn [template_lines]. apply orb_false_iff in E as [_ E]. rewrite E.
  cbn [fmap list_fmap]. rewrite IH. f_equal.
  unfold new_line, line_key, Py.at_least_one.
  destruct (reference_lookup _ p) as [[[desc pack] pl] pt]. cbn.
  destruct (stated_quantity _ r) as [q |]; [rewrite Z.max_r by lia |]; reflexivity.
Qed.

Lemma renumbered_key t : line_key <$> renumbered t = line_key <$> t.
Proof.
  unfold renumbered. rewrite fmap_imap. rewrite <- (imap_const line_key t).
  apply imap_ext. intros i rw _. destruct rw. reflexivity.
Qed.

(** C5. On a panel whose template cache is what [_preload_templates]
    loads from the database [db], and that has this database for its
    engine or no engine, applying the template named [T] appends one line
    for each (part number, quantity) pair the template table of [db] holds
    for [T], in table order, each showing the pair's part number and
    quantity; the pairs are those of the rows whose name is [T]'s, both
    trimmed and lower-cased, but for the rows with an empty name or an empty
    normalised part number, with 1 for a quantity that is missing or does
    not parse, and with every quantity at least 1. *)
Theorem apply_template_appends (T : string) (p : Panel) (db : database) :
  templates p = templates (_preload_templates (set_engine (Some db) p)) ->
  engine p = None \/ engine p = Some db ->
  line_key <$> table (_apply_template T p)
  = (line_key <$> table p)
    ++ ((fun '(pn, q) => (Some pn, Some (Text.str_of_int q)))
          <$> match db_templates db with
              | Some tpl => template_pairs tpl T
              | None => []
              end).
Proof.
  intros Hload He. pose proof (apply_template_table T p) as Ht. cbn zeta in Ht.
  set (p1 := if bool_decide (templates p = ∅) then _preload_templates p else p) in Ht.
  pose proof (preload_templates_lookup (set_engine (Some db) p) T) as Hdb.
  cbn [engine set_engine mbind option_bind] in Hdb. rewrite <- Hload in Hdb.
  assert (default [] (templates p1 !! str_lower (Text.strip T))
          = match db_templates db with
            | Some tpl => template_pairs tpl T
            | None => []
            end) as Hitems.
  { unfold p1. case_bool_decide as Hd; [| exact Hdb].
    rewrite preload_templates_lookup. destruct He as [-> | ->]; [| reflexivity].
    rewrite <- Hdb, Hd, lookup_empty. reflexivity. }
  rewrite Hitems in Ht. rewrite Ht.
  destruct (db_templates db) as [tpl |].
  - pose proof (template_pairs_lines tpl T (length (table p)) p) as Hk.
    destruct (template_lines (length (table p)) (template_pairs tpl T) p) as [| l ls].
    + rewrite <- Hk. cbn. rewrite app_nil_r. reflexivity.
    + rewrite renumbered_key, fmap_app, Hk. reflexivity.
  - cbn. rewrite app_nil_r. reflexivity.
Qed.

(** *** Stored prices *)
















End GridClaims.

(** ** pg_admin_gui.py *)

Section AdminGrid.
Import PgAdmin.
Context `{Python} `{!Engine}.

(** C10. [coerce_value] never raises: it returns [None] for an empty or
    missing text, the converted value when the conversion to the column's
    type succeeds, and the text as it is when the conversion fails. *)
Theorem coerce_value_never_raises (col : column) (raw : option string) :
  coerce_value col raw =
    Ret (match raw with
         | None => VNone
         | Some s =>
             if Text.is_empty s then VNone
             else default (VStr s) (typed_value (col_type col) s)
         end).
Proof.
  destruct raw as [s |]; [| reflexivity]. unfold coerce_value.
  destruct (Text.is_empty s); [reflexivity |].
  unfold coerce_typed, typed_value.
  destruct (col_type col); cbn; try reflexivity.
  - destruct (int_of_str s); reflexivity.
  - destruct (float_of_str s); reflexivity.
  - destruct (float_of_str s); reflexivity.
  - destruct (datetime_fromisoformat s); reflexivity.
  - destruct (date_fromisoformat s); reflexivity.
  - destruct (time_fromisoformat s); reflexivity.
Qed.

Lemma truthy_pk_single (tbl : Table) c :
  truthy_pk (_detect_single_pk tbl) = Some c -> length (tbl_pk tbl) = 1%nat.
Proof.
  unfold _detect_single_pk. destruct (tbl_pk tbl) as [| x [| y l]]; cbn; try discriminate.
  reflexivity.
Qed.

Lemma truthy_pk_none (tbl : Table) :
  length (tbl_pk tbl) <> 1%nat -> truthy_pk (_detect_single_pk tbl) = None.
Proof.
  intros Hn. destruct (truthy_pk (_detect_single_pk tbl)) as [c |] eqn:E; [| reflexivity].
  apply truthy_pk_single in E. contradiction.
Qed.

(** Without a usable key every handler stops before it reaches the
    database. *)
Lemma run_without_pk (op : operation) (a : App) :
  truthy_pk (current_pk a) = None ->
  run op a = Ret ([], a) /\ selection a = [] \/
  (exists m, run op a = Ret ([ShowInfo m], a)) /\ selection a <> [].
Proof.
  intros Hpk. destruct op; cbn [run];
    unfold on_edit_selected, on_tree_double_click, on_bulk_update, on_delete_selected;
    destruct (selection a) as [| i [| j l]] eqn:S; rewrite ?Hpk;
    first [ left; split; reflexivity | right; split; [eexists; reflexivity | discriminate] ].
Qed.

(** C8 (as amended). With table [tbl] shown, single-row edit, bulk update
    and deletion change the database only when the primary key of [tbl] has
    exactly one column; when it has not and at least one row is selected,
    each shows one informational message and leaves the state, the
    database with it, unchanged; with no row selected each returns at once
    and shows nothing. *)
Theorem admin_ops_need_single_pk (tbl : Table) (op : operation) (a : App) :
  showing tbl a ->
  (forall log a', run op a = Ret (log, a') ->
     engine_db a' <> engine_db a -> length (tbl_pk tbl) = 1%nat) /\
  (length (tbl_pk tbl) <> 1%nat -> selection a <> [] ->
     exists m, run op a = Ret ([ShowInfo m], a)) /\
  (length (tbl_pk tbl) <> 1%nat -> selection a = [] -> run op a = Ret ([], a)).
Proof.
  intros [Ht Hpk].
  assert (length (tbl_pk tbl) <> 1%nat ->
          run op a = Ret ([], a) /\ selection a = [] \/
          (exists m, run op a = Ret ([ShowInfo m], a)) /\ selection a <> []) as Hno.
  { intros Hn. apply run_without_pk. rewrite Hpk. apply truthy_pk_none, Hn. }
  split; [| split].
  - intros log a' Hrun Hdb.
    destruct (Nat.eq_dec (length (tbl_pk tbl)) 1%nat) as [E | E]; [exact E |].
    exfalso. apply Hdb.
    destruct (Hno E) as [[Hr _] | [[m Hr] _]]; rewrite Hr in Hrun;
      injection Hrun as _ <-; reflexivity.
  - intros Hn Hsel. destruct (Hno Hn) as [[_ Hs] | [Hm _]]; [contradiction | exact Hm].
  - intros Hn Hsel. destruct (Hno Hn) as [[Hr _] | [_ Hs]]; [exact Hr | contradiction].
Qed.

End AdminGrid.

(** A grid on a table with a two-column key and one selected row: the
    deletion is refused with a message. *)
Lemma admin_ops_need_single_pk_witness :
  PgAdmin.showing Sample.composite_table (Sample.grid [0%nat]) /\
  exists m, PgAdmin.run (PgAdmin.DeleteRows true) (Sample.grid [0%nat])
            = Ret ([PgAdmin.ShowInfo m], Sample.grid [0%nat]).
Proof.
  assert (PgAdmin.showing Sample.composite_table (Sample.grid [0%nat])) as Hs
    by (split; reflexivity).
  split; [exact Hs |].
  apply (admin_ops_need_single_pk Sample.composite_table (PgAdmin.DeleteRows true)
           (Sample.grid [0%nat]) Hs).
  - cbn. discriminate.
  - discriminate.
Defined.

(** C8 (as stated) fails: with no single-column key and nothing selected,
    the deletion (from the context menu) returns without any message. *)
Lemma admin_delete_silent_without_selection :
  PgAdmin.showing Sample.composite_table (Sample.grid []) /\
  length (PgAdmin.tbl_pk Sample.composite_table) <> 1%nat /\
  PgAdmin.run (PgAdmin.DeleteRows true) (Sample.grid []) = Ret ([], Sample.grid []) /\
  PgAdmin.run (PgAdmin.BulkUpdate PgAdmin.Cancelled) (Sample.grid []) = Ret ([], Sample.grid []) /\
  PgAdmin.run (PgAdmin.EditRow PgAdmin.Cancelled) (Sample.grid []) = Ret ([], Sample.grid []).
Proof. repeat split; try reflexivity. cbn. discriminate. Qed.

(** ** Worked quotes *)

Ltac conj_split := repeat lazymatch goal with |- _ /\ _ => split end.
Ltac by_eval := vm_compute; reflexivity.

Section Worked.
#[local] Existing Instance Sample.python.
#[local] Existing Instance Sample.postgres.

(** [connect_db] returns [False] and leaves no engine; the index and the
    templates are loaded. *)
Example connect_db_drops_engine :
  fst (connect_db Sample.db ["EVE"; "S"; "F"] "REF" init_panel) = false /\
  engine Sample.loaded = None /\
  tin_index Sample.loaded = build_tin_index Sample.tin /\
  templates Sample.loaded !! "eve tr" = Some [("12", 2); ("A-7", 1)] /\
  templates Sample.loaded !! "s" = Some [("12", 5); ("A-7", 2); ("12", 1); ("A-7", 1)].
Proof. conj_split; by_eval. Qed.

(** Every template button of the window stops in [set_mode]: no line is
    added. *)
Example template_button_adds_nothing :
  handle (TemplateButton "EVE TR" (Some "EVE") None) Sample.loaded
  = (Raise "AttributeError", Sample.loaded).
Proof. by_eval. Qed.

Example quoted_labels :
  lbl_total Sample.quoted = "Итого: 240.50" /\ lbl_margin Sample.quoted = "Маржа: 71.79%".
Proof. conj_split; by_eval. Qed.

Example quoted_keys :
  line_key <$> table Sample.quoted = [(Some "12", Some "2"); (Some "A-7", Some "1")].
Proof. by_eval. Qed.

Example sample_float_reads_zero : float_reads_zero.
Proof. split; by_eval. Qed.

(** The quote of the template "EVE TR" with the quantity of its second
    line overwritten by a text that is no number: the line counts for
    nothing, and the total is that of the first line, 2 x 100. *)
Lemma recalc_totals_formula_witness :
  let p := edit_cell 1 COL_QTY "two" Sample.quoted in
  float_reads_zero /\
  line_q <$> table p = [2%float; 0%float] /\
  list_total_of (table p) (discountSpin p) (kursSpin p) = 200%float /\
  lbl_total (_recalc_totals p) = "Итого: 200.00".
Proof.
  cbn zeta. split; [exact sample_float_reads_zero |].
  split; [by_eval |]. split; [by_eval |].
  rewrite (proj1 (recalc_totals_formula (edit_cell 1 COL_QTY "two" Sample.quoted)
                    sample_float_reads_zero)).
  by_eval.
Defined.

(** The template "S" applied to the loaded panel appends a line for each
    of its four pairs: the quantity 5 as stated, 2.9 cut to 2, 0 raised
    to 1, and 1 for the text that is no number. *)
Lemma apply_template_appends_witness :
  templates Sample.loaded
    = templates (_preload_templates (set_engine (Some Sample.db) Sample.loaded)) /\
  engine Sample.loaded = None /\
  line_key <$> table (_apply_template "S" Sample.loaded)
  = [(Some "12", Some "5"); (Some "A-7", Some "2"); (Some "12", Some "1");
     (Some "A-7", Some "1")].
Proof.
  assert (templates Sample.loaded
          = templates (_preload_templates (set_engine (Some Sample.db) Sample.loaded)))
    as Hl by by_eval.
  split; [exact Hl |]. split; [reflexivity |].
  rewrite (apply_template_appends "S" Sample.loaded Sample.db Hl (or_introl eq_refl)).
  by_eval.
Defined.

(** The part number "A1-2" on the loaded panel: the first reference
    record has the key "12", its normalised reference, which is the
    digits of the part number. *)
Lemma reference_lookup_spec_witness :
  (exists r, lookup_match "A1-2" Sample.loaded Sample.tin r) /\
  exists r, lookup_match "A1-2" Sample.loaded Sample.tin r /\
            reference_lookup "A1-2" Sample.loaded = hit_of r.
Proof.
  assert (exists r, lookup_match "A1-2" Sample.loaded Sample.tin r) as Hx.
  { eexists. right. split; [left |]. exists "12.0", "12". split; [reflexivity |].
    split; [right; right; left | left]. }
  split; [exact Hx |].
  apply (reference_lookup_spec "A1-2" Sample.loaded Sample.tin); [by_eval | by_eval | exact Hx].
Defined.

(** C3 (as stated) fails: for the part number "A1-2" the lookup returns
    the data of the record of reference "12.0", which matches it by none
    of the trimmed text, the digits-only text ("12" against "120") and
    the number; no other record matches either. *)
Lemma lookup_hits_across_key_forms :
  reference_lookup "A1-2" Sample.loaded = ("Valve", Some "10", Some "100", Some "60") /\
  tin_index Sample.loaded = build_tin_index Sample.tin /\
  tin_ref <$> Sample.tin = [Some "12.0"; Some "A-7"] /\
  spec_match "A1-2" "12.0" = false /\ spec_match "A1-2" "A-7" = false /\
  digits_only (Some "A1-2") = "12" /\ norm_ref (Some "12.0") = "12".
Proof. conj_split; by_eval. Qed.

(** C2, at a failing input. On the quote of the template "EVE TR"
    (240.50 in total, labels up to date), setting the discount to 50 % leaves
    the total label at 240.50, where the new state has a total of 120.25;
    the same for the logistics multiplier (margin) and the rate. *)
Theorem setting_change_leaves_totals_stale :
  labels_fresh Sample.quoted /\ _building_table Sample.quoted = false /\
  lbl_total (after (SetDiscount 50) Sample.quoted) = "Итого: 240.50" /\
  lbl_total (_recalc_totals (after (SetDiscount 50) Sample.quoted)) = "Итого: 120.25" /\
  ~ labels_fresh (after (SetDiscount 50) Sample.quoted) /\
  lbl_margin (after (SetLogistics 2) Sample.quoted) = "Маржа: 71.79%" /\
  lbl_margin (_recalc_totals (after (SetLogistics 2) Sample.quoted)) = "Маржа: -14.11%" /\
  ~ labels_fresh (after (SetLogistics 2) Sample.quoted) /\
  lbl_total (after (SetKurs 2) Sample.quoted) = "Итого: 240.50" /\
  lbl_total (_recalc_totals (after (SetKurs 2) Sample.quoted)) = "Итого: 481.00" /\
  ~ labels_fresh (after (SetKurs 2) Sample.quoted).
Proof.
  conj_split;
    lazymatch goal with
    | |- labels_fresh _ => unfold labels_fresh; split; by_eval
    | |- ~ labels_fresh _ =>
        unfold labels_fresh; intros [E1 E2]; vm_compute in E1; vm_compute in E2;
        discriminate
    | |- _ => by_eval
    end.
Qed.



(** "12.0" normalises to "12", the text of an integer held exactly, and a
    second normalisation keeps it. *)
Lemma norm_ref_idempotent_iff_witness :
  stable_digits "12" /\
  norm_ref (Some (norm_ref (Some "12.0"))) = norm_ref (Some "12.0").
Proof.
  assert (stable_digits "12") as Hs.
  { left. exists 12. split; [| reflexivity]. split; [split; [lia | reflexivity] |].
    exists 12. reflexivity. }
  split; [exact Hs |].
  apply (norm_ref_idempotent_iff (Some "12.0")).
  intros g E. vm_compute in E. injection E as <-. exact Hs.
Defined.

End Worked.
